(** * QSE Architect AI: workflow handlers and chart-data merge

    A shallow embedding of the TypeScript sources
    [types.ts], [geminiService.ts], [App.tsx] and [DataVisualizer.tsx],
    followed by the properties of the stage workflow and of the
    baseline/counterfactual merge. *)

From Stdlib Require Import Ascii String NArith QArith_base.
From stdpp Require Import gmap strings list fin_maps.

Close Scope Q_scope.
Set Warnings "-register-all".
Local Open Scope N_scope.

(** ** JavaScript values *)

(** A JavaScript string is a sequence of UTF-16 code units. *)
Abbreviation jsstring := (list N).

(** The code units of an ASCII literal of the source. *)
Definition js (s : string) : jsstring :=
  N_of_ascii <$> list_ascii_of_string s.

(** Numbers are only ever copied by the code under study, never computed
    with; rationals stand for them. *)
Abbreviation number := Q.

Module JS.

(** ECMAScript [WhiteSpace] and [LineTerminator] code points, the ones
    [String.prototype.trim] strips: TAB, LF, VT, FF, CR, SP, NBSP, U+1680,
    U+2000..U+200A, U+2028, U+2029, U+202F, U+205F, U+3000, U+FEFF. *)
Definition is_white_space (c : N) : bool :=
  bool_decide (c ∈ [9; 10; 11; 12; 13; 32; 160; 5760; 8232; 8233; 8239;
                    8287; 12288; 65279])
  || ((8192 <=? c) && (c <=? 8202)).

Fixpoint trimStart (s : jsstring) : jsstring :=
  match s with
  | c :: rest => if is_white_space c then trimStart rest else s
  | [] => []
  end.

Definition trimEnd (s : jsstring) : jsstring :=
  reverse (trimStart (reverse s)).

(** [s.trim()] *)
Definition trim (s : jsstring) : jsstring := trimEnd (trimStart s).

(** Truthiness of a string: every string but the empty one. *)
Definition truthy_string (s : jsstring) : bool :=
  match s with [] => false | _ :: _ => true end.

(** A value as [JSON.parse] produces it. *)
Inductive json : Type :=
| JNull
| JBool (b : bool)
| JNum (x : number)
| JStr (s : jsstring)
| JArr (items : list json)
| JObj (members : list (jsstring * json)).

(** Truthiness ([!v] is its negation): [null], [false], [0] and the empty
    string are falsy, every array and every object is truthy. *)
Definition truthy (v : json) : bool :=
  match v with
  | JNull => false
  | JBool b => b
  | JNum x => negb (Qeq_bool x (0 # 1))
  | JStr s => truthy_string s
  | JArr _ | JObj _ => true
  end.

(** Property read [o.key] on an object; [None] is [undefined]. *)
Fixpoint member (key : jsstring) (members : list (jsstring * json)) : option json :=
  match members with
  | [] => None
  | (k, v) :: rest => if bool_decide (k = key) then Some v else member key rest
  end.

End JS.
Import JS.

(** ** types.ts *)

Inductive AppStage : Type :=
| PROBLEM_DEFINITION
| MODEL_CONSTRUCTION
| DATA_GENERATION
| ESTIMATION_ANALYSIS
| COUNTERFACTUAL.

Global Instance AppStage_eq_dec : EqDecision AppStage.
Proof. solve_decision. Defined.

Record LocationData : Type := mkLocationData {
  id : jsstring;
  name : jsstring;
  population : number;
  wages : number;
  rents : number;
  amenity : number;
  productivity : number
}.

(** ** App.tsx: component state *)

(** The [useState] cells of [App].  [baselineData] and [counterfactualData]
    are typed [SimulationResult | null] in the source but hold whatever
    [JSON.parse] returned; [JNull] is [null]. *)
Record AppState : Type := mkAppState {
  stage : AppStage;
  problemInput : jsstring;
  isProcessing : bool;
  modelLogic : jsstring;
  baselineData : json;
  analysisReport : jsstring;
  counterfactualInput : jsstring;
  counterfactualData : json
}.

Definition initialState : AppState := {|
  stage := PROBLEM_DEFINITION;
  problemInput := js "Analyze the impact of a productivity shock in the largest city on population distribution.";
  isProcessing := false;
  modelLogic := [];
  baselineData := JNull;
  analysisReport := [];
  counterfactualInput := js "Increase productivity in City A by 20%";
  counterfactualData := JNull
|}.

Definition with_stage (v : AppStage) (s : AppState) : AppState :=
  mkAppState v (problemInput s) (isProcessing s) (modelLogic s) (baselineData s)
             (analysisReport s) (counterfactualInput s) (counterfactualData s).
Definition with_problemInput (v : jsstring) (s : AppState) : AppState :=
  mkAppState (stage s) v (isProcessing s) (modelLogic s) (baselineData s)
             (analysisReport s) (counterfactualInput s) (counterfactualData s).
Definition with_isProcessing (v : bool) (s : AppState) : AppState :=
  mkAppState (stage s) (problemInput s) v (modelLogic s) (baselineData s)
             (analysisReport s) (counterfactualInput s) (counterfactualData s).
Definition with_modelLogic (v : jsstring) (s : AppState) : AppState :=
  mkAppState (stage s) (problemInput s) (isProcessing s) v (baselineData s)
             (analysisReport s) (counterfactualInput s) (counterfactualData s).
Definition with_baselineData (v : json) (s : AppState) : AppState :=
  mkAppState (stage s) (problemInput s) (isProcessing s) (modelLogic s) v
             (analysisReport s) (counterfactualInput s) (counterfactualData s).
Definition with_analysisReport (v : jsstring) (s : AppState) : AppState :=
  mkAppState (stage s) (problemInput s) (isProcessing s) (modelLogic s) (baselineData s)
             v (counterfactualInput s) (counterfactualData s).
Definition with_counterfactualInput (v : jsstring) (s : AppState) : AppState :=
  mkAppState (stage s) (problemInput s) (isProcessing s) (modelLogic s) (baselineData s)
             (analysisReport s) v (counterfactualData s).
Definition with_counterfactualData (v : json) (s : AppState) : AppState :=
  mkAppState (stage s) (problemInput s) (isProcessing s) (modelLogic s) (baselineData s)
             (analysisReport s) (counterfactualInput s) v.

(** ** Asynchronous code *)

(** What an [async] function of the source can do: return, throw, call a
    state setter, print ([alert], [console.error]) and [await] the
    generation service.  [Await] holds the rest of the function, to be
    resumed with the service's reply. *)

Inductive error : Type :=
| ServiceFailure      (* the promise of [ai.models.generateContent] rejected *)
| JsonSyntaxError.    (* [JSON.parse] threw *)

Inductive request : Type :=
| ModelLogicRequest (problemDescription : jsstring)
| SyntheticDataRequest (modelContext : jsstring)
| AnalysisRequest (modelContext : jsstring) (data : json)
| CounterfactualRequest (originalData : json) (changeDescription : jsstring).

(** The response object of the service as the code reads it: [response.text]
    ([None] for [undefined]) and, for a non-empty text, what [JSON.parse]
    makes of it ([None] when it throws). *)
Record response : Type := mkResponse {
  text : option jsstring;
  parsed : option json
}.

Inductive reply : Type :=
| Rejected
| Resolved (r : response).

Inductive output : Type :=
| Alert (message : jsstring)
| ConsoleError (message : jsstring).

Inductive io (A : Type) : Type :=
| Ret (a : A)
| Throw (e : error)
| Update (f : AppState -> AppState) (k : io A)
| Print (o : output) (k : io A)
| Await (req : request) (k : reply -> io A).
Arguments Ret {A} a.
Arguments Throw {A} e.
Arguments Update {A} f k.
Arguments Print {A} o k.
Arguments Await {A} req k.

Fixpoint io_bind {A B : Type} (f : A -> io B) (m : io A) : io B :=
  match m with
  | Ret a => f a
  | Throw e => Throw e
  | Update g k => Update g (io_bind f k)
  | Print o k => Print o (io_bind f k)
  | Await req k => Await req (fun r => io_bind f (k r))
  end.

Global Instance io_mret : MRet io := @Ret.
Global Instance io_mbind : MBind io := @io_bind.

(** [try { body } catch (e) { handler e }] *)
Fixpoint try_catch {A : Type} (body : io A) (handler : error -> io A) : io A :=
  match body with
  | Ret a => Ret a
  | Throw e => handler e
  | Update g k => Update g (try_catch k handler)
  | Print o k => Print o (try_catch k handler)
  | Await req k => Await req (fun r => try_catch (k r) handler)
  end.

(** [try { body } finally { cleanup }]: the cleanup runs on both exits and
    the body's completion is kept unless the cleanup itself throws. *)
Fixpoint try_finally {A : Type} (body : io A) (cleanup : io unit) : io A :=
  match body with
  | Ret a => cleanup ;; Ret a
  | Throw e => cleanup ;; Throw e
  | Update g k => Update g (try_finally k cleanup)
  | Print o k => Print o (try_finally k cleanup)
  | Await req k => Await req (fun r => try_finally (k r) cleanup)
  end.

Definition try_catch_finally {A : Type}
    (body : io A) (handler : error -> io A) (cleanup : io unit) : io A :=
  try_finally (try_catch body handler) cleanup.

(** [await ai.models.generateContent(...)]: a rejection is thrown at the
    [await]. *)
Definition generateContent (req : request) : io response :=
  Await req (fun r =>
    match r with
    | Rejected => Throw ServiceFailure
    | Resolved resp => Ret resp
    end).

Definition alert (message : string) : io unit := Print (Alert (js message)) (Ret tt).
Definition console_error (message : string) : io unit :=
  Print (ConsoleError (js message)) (Ret tt).

(** ** geminiService.ts *)

(** [response.text || fallback] *)
Definition text_or (resp : response) (fallback : string) : jsstring :=
  match text resp with
  | Some t => if truthy_string t then t else js fallback
  | None => js fallback
  end.

(** [JSON.parse(response.text || "{}")]: an absent or empty text is read as
    the empty object. *)
Definition JSON_parse_text (resp : response) : io json :=
  match text resp with
  | Some (_ :: _) =>
      match parsed resp with
      | Some v => Ret v
      | None => Throw JsonSyntaxError
      end
  | _ => Ret (JObj [])
  end.

Definition generateModelLogic (problemDescription : jsstring) : io jsstring :=
  try_catch
    (response ← generateContent (ModelLogicRequest problemDescription);
     Ret (text_or response "No response generated."))
    (fun error =>
       console_error "Error generating model logic:";;
       Throw error).

Definition generateSyntheticData (modelContext : jsstring) : io json :=
  try_catch
    (response ← generateContent (SyntheticDataRequest modelContext);
     JSON_parse_text response)
    (fun error =>
       console_error "Error generating data:";;
       Throw error).

Definition analyzeEquilibrium (modelContext : jsstring) (data : json) : io jsstring :=
  try_catch
    (response ← generateContent (AnalysisRequest modelContext data);
     Ret (text_or response "Analysis could not be generated."))
    (fun error =>
       console_error "Error generating analysis:";;
       Ret (js "Error generating analysis report.")).

Definition runCounterfactual (originalData : json) (changeDescription : jsstring) : io json :=
  try_catch
    (response ← generateContent (CounterfactualRequest originalData changeDescription);
     JSON_parse_text response)
    (fun error =>
       console_error "Error generating counterfactual:";;
       Throw error).

(** ** App.tsx: handlers *)

Definition setStage (v : AppStage) : io unit := Update (with_stage v) (Ret tt).
Definition setProblemInput (v : jsstring) : io unit := Update (with_problemInput v) (Ret tt).
Definition setIsProcessing (v : bool) : io unit := Update (with_isProcessing v) (Ret tt).
Definition setModelLogic (v : jsstring) : io unit := Update (with_modelLogic v) (Ret tt).
Definition setBaselineData (v : json) : io unit := Update (with_baselineData v) (Ret tt).
Definition setAnalysisReport (v : jsstring) : io unit := Update (with_analysisReport v) (Ret tt).
Definition setCounterfactualInput (v : jsstring) : io unit :=
  Update (with_counterfactualInput v) (Ret tt).
Definition setCounterfactualData (v : json) : io unit :=
  Update (with_counterfactualData v) (Ret tt).

(** Each handler is a closure over the state of the render it was created
    in: [st] is that render's state, which the handler reads; the setters act
    on the live state. *)

Definition handleProblemSubmit (st : AppState) : io unit :=
  if negb (truthy_string (trim (problemInput st))) then Ret tt else
  setIsProcessing true;;
  try_catch_finally
    (logic ← generateModelLogic (problemInput st);
     setModelLogic logic;;
     setStage MODEL_CONSTRUCTION)
    (fun _ => alert "Error generating model. Please check API key or try again.")
    (setIsProcessing false).

Definition handleGenerateData (st : AppState) : io unit :=
  setIsProcessing true;;
  try_catch_finally
    (data ← generateSyntheticData (modelLogic st);
     setBaselineData data;;
     setStage DATA_GENERATION)
    (fun _ => alert "Error simulating data.")
    (setIsProcessing false).

Definition handleProceedToAnalysis (st : AppState) : io unit :=
  if negb (truthy (baselineData st)) then Ret tt else
  setIsProcessing true;;
  try_catch_finally
    ((if negb (truthy_string (analysisReport st)) then
        report ← analyzeEquilibrium (modelLogic st) (baselineData st);
        setAnalysisReport report
      else Ret tt);;
     setStage ESTIMATION_ANALYSIS)
    (fun _ => alert "Error generating analysis report.")
    (setIsProcessing false).

Definition handleProceedToCounterfactual (st : AppState) : io unit :=
  setStage COUNTERFACTUAL.

Definition handleRunCounterfactual (st : AppState) : io unit :=
  if negb (truthy (baselineData st))
     || negb (truthy_string (trim (counterfactualInput st))) then Ret tt else
  setIsProcessing true;;
  try_catch_finally
    (cfData ← runCounterfactual (baselineData st) (counterfactualInput st);
     setCounterfactualData cfData)
    (fun _ => alert "Error running counterfactual.")
    (setIsProcessing false).

(** ** Running asynchronous code *)

(** The live state of the component together with what has been sent to the
    service and printed so far. *)
Record world : Type := mkWorld {
  app : AppState;
  sent : list request;
  printed : list output
}.

Definition freshWorld (st : AppState) : world := mkWorld st [] [].

Inductive completion (A : Type) : Type :=
| Returned (a : A)
| Threw (e : error)
| Suspended (k : reply -> io A).
Arguments Returned {A} a.
Arguments Threw {A} e.
Arguments Suspended {A} k.

(** [perform p replies w] runs [p] from [w]; every [await] sends its request
    and is resumed with the next reply of [replies], and with none left the
    code stays suspended there. *)
Fixpoint perform {A : Type} (p : io A) (replies : list reply) (w : world)
  : world * completion A :=
  match p with
  | Ret a => (w, Returned a)
  | Throw e => (w, Threw e)
  | Update f k => perform k replies (mkWorld (f (app w)) (sent w) (printed w))
  | Print o k => perform k replies (mkWorld (app w) (sent w) (printed w ++ [o]))
  | Await req k =>
      let w' := mkWorld (app w) (sent w ++ [req]) (printed w) in
      match replies with
      | [] => (w', Suspended k)
      | r :: rest => perform (k r) rest w'
      end
  end.

(** A handler invoked on the current render and run to the end with the given
    replies of the service. *)
Definition invoke (handler : AppState -> io unit) (replies : list reply) (st : AppState)
  : world * completion unit :=
  perform (handler st) replies (freshWorld st).

(** ** StageNavigator.tsx *)

Definition STAGES : list (AppStage * string) :=
  [ (PROBLEM_DEFINITION, "Problem");
    (MODEL_CONSTRUCTION, "Modeling");
    (DATA_GENERATION, "Simulation");
    (ESTIMATION_ANALYSIS, "Analysis");
    (COUNTERFACTUAL, "Counterfactual") ]%string.

(** [STAGES.findIndex(s => s.id === currentStage)] *)
Definition currentIndex (currentStage : AppStage) : option nat :=
  fst <$> list_find (fun s => s.1 = currentStage) STAGES.

(** The stage displayed right after [s] in the navigator, if any. *)
Definition successor (s : AppStage) : option AppStage :=
  i ← currentIndex s; fst <$> STAGES !! S i.

(** ** App.tsx: the rendered view *)

Inductive button : Type :=
| BuildModel                  (* "Build Model" *)
| GenerateSyntheticData       (* "Generate Synthetic Data" *)
| ProceedToAnalysis           (* "Proceed to Analysis" *)
| RunCounterfactualAnalysis   (* "Run Counterfactual Analysis" *)
| RunSimulation.              (* "Run Simulation" *)

Definition onClick (b : button) : AppState -> io unit :=
  match b with
  | BuildModel => handleProblemSubmit
  | GenerateSyntheticData => handleGenerateData
  | ProceedToAnalysis => handleProceedToAnalysis
  | RunCounterfactualAnalysis => handleProceedToCounterfactual
  | RunSimulation => handleRunCounterfactual
  end.

(** The button is part of the rendered tree and not [disabled].  A render
    that throws (baseline data without a [locations] array reaching
    [DataVisualizer]) is not modelled: every click the real view accepts is
    accepted here, not the other way round. *)
Definition clickable (b : button) (st : AppState) : bool :=
  match b with
  | BuildModel =>
      bool_decide (stage st = PROBLEM_DEFINITION) && negb (isProcessing st)
  | GenerateSyntheticData =>
      bool_decide (stage st = MODEL_CONSTRUCTION) && negb (isProcessing st)
  | ProceedToAnalysis =>
      (bool_decide (stage st = DATA_GENERATION)
       || bool_decide (stage st = ESTIMATION_ANALYSIS))
      && truthy (baselineData st)
      && (bool_decide (stage st = DATA_GENERATION) && negb (isProcessing st))
  | RunCounterfactualAnalysis =>
      (bool_decide (stage st = DATA_GENERATION)
       || bool_decide (stage st = ESTIMATION_ANALYSIS))
      && truthy (baselineData st)
      && bool_decide (stage st = ESTIMATION_ANALYSIS)
  | RunSimulation =>
      bool_decide (stage st = COUNTERFACTUAL) && truthy (baselineData st)
      && negb (isProcessing st)
  end.

Inductive textarea : Type :=
| ProblemText     (* the research question *)
| ShockText.      (* "Describe Shock" *)

Definition onChange (t : textarea) (value : jsstring) : io unit :=
  match t with
  | ProblemText => setProblemInput value
  | ShockText => setCounterfactualInput value
  end.

Definition editable (t : textarea) (st : AppState) : bool :=
  match t with
  | ProblemText => bool_decide (stage st = PROBLEM_DEFINITION)
  | ShockText => bool_decide (stage st = COUNTERFACTUAL) && truthy (baselineData st)
  end.

(** What can happen to a mounted [App]: the user clicks a button or edits a
    text area of the current render, or the service settles one of the
    outstanding calls. *)
Inductive event : Type :=
| Click (b : button)
| Change (t : textarea) (value : jsstring)
| Settle (i : nat) (r : reply).

(** A mounted [App]: its live state and the suspended handlers, oldest
    first. *)
Record session : Type := mkSession {
  current : world;
  inflight : list (reply -> io unit)
}.

Definition mount : session := mkSession (freshWorld initialState) [].

(** Runs [p] up to its first [await] (or to its end). *)
Definition dispatch (p : io unit) (others : list (reply -> io unit)) (w : world) : session :=
  match perform p [] w with
  | (w', Suspended k) => mkSession w' (others ++ [k])
  | (w', _) => mkSession w' others
  end.

Definition step (s : session) (e : event) : option session :=
  match e with
  | Click b =>
      if clickable b (app (current s))
      then Some (dispatch (onClick b (app (current s))) (inflight s) (current s))
      else None
  | Change t value =>
      if editable t (app (current s))
      then Some (dispatch (onChange t value) (inflight s) (current s))
      else None
  | Settle i r =>
      k ← inflight s !! i;
      Some (dispatch (k r) (delete i (inflight s)) (current s))
  end.

Fixpoint steps (s : session) (es : list event) : option session :=
  match es with
  | [] => Some s
  | e :: rest => s' ← step s e; steps s' rest
  end.

(** ** DataVisualizer.tsx *)

Inductive jsval : Type :=
| VString (s : jsstring)
| VNumber (x : number).

(** [{ ...src }] inside an object literal whose earlier properties are
    [dst]: the properties of [src] are added, replacing equal keys. *)
Definition spread (src dst : gmap jsstring jsval) : gmap jsstring jsval := src ∪ dst.

Definition chartData (data : list LocationData) (comparisonData : option (list LocationData))
  : list (gmap jsstring jsval) :=
  (fun d =>
     let comp := comparisonData ≫= List.find (fun c => bool_decide (id c = id d)) in
     spread
       (match comp with
        | Some comp =>
            <[js "Rents (CF)" := VNumber (rents comp)]>
              (<[js "Wages (CF)" := VNumber (wages comp)]>
                 (<[js "Pop (CF)" := VNumber (population comp)]> ∅))
        | None => ∅
        end)
       (<[js "Rents" := VNumber (rents d)]>
          (<[js "Wages" := VNumber (wages d)]>
             (<[js "Population" := VNumber (population d)]>
                (<[js "name" := VString (name d)]> ∅))))) <$> data.

(** ** The schema validator of the specification *)

(** Section 4.1 of the specification in its own words; the sources contain no
    such function, it is the yardstick the code is compared with. *)
Definition spec_is_string (v : option json) : bool :=
  match v with Some (JStr _) => true | _ => false end.
Definition spec_is_number (v : option json) : bool :=
  match v with Some (JNum _) => true | _ => false end.

Definition spec_location_ok (v : json) : bool :=
  match v with
  | JObj m =>
      spec_is_string (member (js "id") m)
      && spec_is_string (member (js "name") m)
      && spec_is_number (member (js "population") m)
      && spec_is_number (member (js "wages") m)
      && spec_is_number (member (js "rents") m)
      && spec_is_number (member (js "amenity") m)
      && spec_is_number (member (js "productivity") m)
  | _ => false
  end.

Definition spec_schema_ok (v : json) : bool :=
  match v with
  | JObj m =>
      match member (js "locations") m with
      | Some (JArr items) => forallb spec_location_ok items
      | _ => false
      end
      && match member (js "parameters") m with
         | Some (JObj _) => true
         | _ => false
         end
  | _ => false
  end.

(** The two groups of properties of a chart row, named for the statements
    below: the ones copied from the baseline record and the ones copied from
    the comparison record found for it, if any. *)
Definition baseline_fields (d : LocationData) : gmap jsstring jsval :=
  <[js "Rents" := VNumber (rents d)]>
    (<[js "Wages" := VNumber (wages d)]>
       (<[js "Population" := VNumber (population d)]>
          (<[js "name" := VString (name d)]> ∅))).

Definition comparison_fields (comp : option LocationData) : gmap jsstring jsval :=
  match comp with
  | Some comp =>
      <[js "Rents (CF)" := VNumber (rents comp)]>
        (<[js "Wages (CF)" := VNumber (wages comp)]>
           (<[js "Pop (CF)" := VNumber (population comp)]> ∅))
  | None => ∅
  end.

(** Sample records: the baseline and counterfactual records of the
    specification's merge example, and a second counterfactual record with
    the same [id]. *)
Definition cityA : LocationData :=
  mkLocationData (js "1") (js "A") (100 # 1) (10 # 1) (5 # 1) (1 # 1) (1 # 1).
Definition cityA_shocked : LocationData :=
  mkLocationData (js "1") (js "A") (120 # 1) (12 # 1) (6 # 1) (1 # 1) (12 # 10).
Definition cityA_again : LocationData :=
  mkLocationData (js "1") (js "A") (999 # 1) (99 # 1) (9 # 1) (1 # 1) (12 # 10).

(** ** Vocabulary of the statements *)

Arguments js : simpl never.

(** A blank text: nothing but white space (the empty text included). *)
Definition blank (s : jsstring) : bool := forallb is_white_space s.

(** A run of a handler reports a failure when it throws or puts up an
    alert. *)
Definition reports_failure (o : world * completion unit) : Prop :=
  (exists e, o.2 = Threw e) \/ (exists message, Alert message ∈ printed o.1).

(** The part of the state the workflow consists of: everything but the two
    text inputs and the in-flight flag. *)
Definition workflow (st : AppState)
  : AppStage * jsstring * json * jsstring * json :=
  (stage st, modelLogic st, baselineData st, analysisReport st, counterfactualData st).

(** The stage stays where it is or moves to its successor. *)
Definition stage_moves (g g' : AppStage) : Prop := g' = g \/ successor g = Some g'.

(** A suspended handler that, resumed at stage [g] with any reply, runs to
    its end without a further [await], clears the in-flight flag, and leaves
    the stage at [g] or moves it to the successor of [g]. *)
Definition finishes_from (g : AppStage) (k : reply -> io unit) : Prop :=
  forall r w, stage (app w) = g ->
    exists w', perform (k r) [] w = (w', Returned tt)
      /\ isProcessing (app w') = false
      /\ (stage (app w') = g \/ successor g = Some (stage (app w'))).

(** What holds of every session the view can get into: nothing is
    outstanding and the flag is clear, or one handler is suspended, the flag
    is set, and that handler finishes from the current stage. *)
Definition view_invariant (s : session) : Prop :=
  match inflight s with
  | [] => isProcessing (app (current s)) = false
  | [k] =>
      isProcessing (app (current s)) = true
      /\ stage (app (current s)) <> ESTIMATION_ANALYSIS
      /\ finishes_from (stage (app (current s))) k
  | _ => False
  end.

(** Sample replies of the service.  [sampleResultText] is the JSON text of a
    result with a description, an empty parameter mapping and one location
    (city A of the merge example), without [totalWelfare]; [sampleResult] is
    the value [JSON.parse] reads from it.  Code unit 34 is the double
    quote. *)
Definition quoted (s : string) : jsstring := [34] ++ js s ++ [34].

Definition sampleResultText : jsstring :=
  js "{" ++ quoted "description" ++ js ":" ++ quoted "eq" ++ js ","
  ++ quoted "parameters" ++ js ":{},"
  ++ quoted "locations" ++ js ":[{"
  ++ quoted "id" ++ js ":" ++ quoted "1" ++ js ","
  ++ quoted "name" ++ js ":" ++ quoted "A" ++ js ","
  ++ quoted "population" ++ js ":100,"
  ++ quoted "wages" ++ js ":10,"
  ++ quoted "rents" ++ js ":5,"
  ++ quoted "amenity" ++ js ":1,"
  ++ quoted "productivity" ++ js ":1}]}".

Definition sampleResult : json :=
  JObj [ (js "description", JStr (js "eq"));
         (js "parameters", JObj []);
         (js "locations",
          JArr [ JObj [ (js "id", JStr (js "1"));
                        (js "name", JStr (js "A"));
                        (js "population", JNum (100 # 1));
                        (js "wages", JNum (10 # 1));
                        (js "rents", JNum (5 # 1));
                        (js "amenity", JNum (1 # 1));
                        (js "productivity", JNum (1 # 1)) ] ]) ].

Definition sampleDataReply : reply :=
  Resolved (mkResponse (Some sampleResultText) (Some sampleResult)).

(** A reply with a text that is no JSON text. *)
Definition sampleTextReply : reply :=
  Resolved (mkResponse (Some (js "Workers choose a location.")) None).

(** A reply without a text. *)
Definition emptyReply : reply := Resolved (mkResponse None None).

(** The state after a model and a baseline were obtained, at Data
    Generation. *)
Definition atDataGeneration : AppState :=
  with_stage DATA_GENERATION
    (with_baselineData sampleResult
       (with_modelLogic (js "Workers choose a location.") initialState)).

(** ** StageNavigator.tsx: the rendered entries *)

(** One entry of the navigator as [STAGES.map] renders it: its label, the
    two flags computed from the index, and the connector line drawn after
    every entry but the last ([Some true] for the green one). *)
Record navEntry : Type := mkNavEntry {
  label : string;
  isActive : bool;
  isCompleted : bool;
  connector : option bool
}.

Definition StageNavigator (currentStage : AppStage) : list navEntry :=
  imap (fun index stage =>
          let isActive := bool_decide (currentIndex currentStage = Some index) in
          let isCompleted :=
            match currentIndex currentStage with
            | Some current => bool_decide (index < current)%nat
            | None => false
            end in
          mkNavEntry stage.2 isActive isCompleted
            (if bool_decide (index < length STAGES - 1)%nat
             then Some isCompleted else None))
       STAGES.

(** ** Further vocabulary of the statements *)

(** The position of a stage in the navigator. *)
Definition stage_rank (g : AppStage) : nat := default 0%nat (currentIndex g).

(** The value a JSON request yields for a reply, [None] when
    [generateSyntheticData] and [runCounterfactual] throw. *)
Definition json_of_reply (r : reply) : option json :=
  match r with
  | Rejected => None
  | Resolved resp =>
      match text resp with
      | Some (_ :: _) => parsed resp
      | _ => Some (JObj [])
      end
  end.

(** A record with its two fundamentals replaced. *)
Definition with_fundamentals (a p : number) (d : LocationData) : LocationData :=
  mkLocationData (id d) (name d) (population d) (wages d) (rents d) a p.

(** Every field of the workflow is written together with the move into its
    stage, and not otherwise; the counterfactual result is written at
    Counterfactual only. *)
Definition writes_in_lockstep (st st' : AppState) : Prop :=
  stage_moves (stage st) (stage st')
  /\ (modelLogic st' = modelLogic st
      \/ (stage st = PROBLEM_DEFINITION /\ stage st' = MODEL_CONSTRUCTION))
  /\ (baselineData st' = baselineData st
      \/ (stage st = MODEL_CONSTRUCTION /\ stage st' = DATA_GENERATION))
  /\ (analysisReport st' = analysisReport st
      \/ (stage st = DATA_GENERATION /\ stage st' = ESTIMATION_ANALYSIS))
  /\ (counterfactualData st' = counterfactualData st
      \/ (stage st = COUNTERFACTUAL /\ stage st' = COUNTERFACTUAL)).

(** A request of the log agrees with the state: a data request carries the
    stored model, an analysis request the stored model and baseline, a
    counterfactual request the stored baseline, and none of them was sent
    before its stage. *)
Definition request_matches (st : AppState) (req : request) : Prop :=
  match req with
  | ModelLogicRequest _ => True
  | SyntheticDataRequest ctx =>
      stage st <> PROBLEM_DEFINITION /\ ctx = modelLogic st
  | AnalysisRequest ctx data =>
      stage st <> PROBLEM_DEFINITION /\ stage st <> MODEL_CONSTRUCTION
      /\ ctx = modelLogic st /\ data = baselineData st
  | CounterfactualRequest original _ =>
      stage st = COUNTERFACTUAL /\ original = baselineData st
  end.

Definition is_analysis_request (req : request) : bool :=
  match req with AnalysisRequest _ _ => true | _ => false end.

Definition analysis_requests (log : list request) : nat :=
  length (filter (fun req => is_analysis_request req = true) log).

(** The products of the earlier stages are there: a model text from Model
    Construction on, and a truthy baseline and a report at Estimation/Analysis
    and at Counterfactual. *)
Definition payload_present (st : AppState) : Prop :=
  match stage st with
  | PROBLEM_DEFINITION => True
  | MODEL_CONSTRUCTION | DATA_GENERATION => truthy_string (modelLogic st) = true
  | ESTIMATION_ANALYSIS | COUNTERFACTUAL =>
      truthy_string (modelLogic st) = true
      /\ truthy (baselineData st) = true
      /\ truthy_string (analysisReport st) = true
  end.

(** A suspended handler that, resumed at stage [g] with any reply, runs to
    its end, sends nothing more, clears the flag, leaves the two text inputs
    alone and writes the workflow in lockstep; resumed at Data Generation it
    always moves on and leaves a report, and when it moves on from Problem
    Definition it leaves a model text. *)
Definition resumes_within (g : AppStage) (k : reply -> io unit) : Prop :=
  forall r w, stage (app w) = g ->
    exists w', perform (k r) [] w = (w', Returned tt)
      /\ sent w' = sent w
      /\ isProcessing (app w') = false
      /\ problemInput (app w') = problemInput (app w)
      /\ counterfactualInput (app w') = counterfactualInput (app w)
      /\ writes_in_lockstep (app w) (app w')
      /\ (g = DATA_GENERATION -> stage (app w') = ESTIMATION_ANALYSIS)
      /\ (g = DATA_GENERATION -> truthy_string (analysisReport (app w')) = true)
      /\ (g = PROBLEM_DEFINITION -> stage (app w') = MODEL_CONSTRUCTION ->
          truthy_string (modelLogic (app w')) = true).

(** What holds of every session the view can get into, with the log of
    requests. *)
Definition session_invariant (s : session) : Prop :=
  Forall (request_matches (app (current s))) (sent (current s))
  /\ (analysis_requests (sent (current s)) <= 1)%nat
  /\ (stage (app (current s)) = DATA_GENERATION ->
      analysis_requests (sent (current s)) = length (inflight s))
  /\ payload_present (app (current s))
  /\ match inflight s with
     | [] => isProcessing (app (current s)) = false
     | [k] =>
         isProcessing (app (current s)) = true
         /\ stage (app (current s)) <> ESTIMATION_ANALYSIS
         /\ (stage (app (current s)) = DATA_GENERATION ->
             truthy (baselineData (app (current s))) = true)
         /\ resumes_within (stage (app (current s))) k
     | _ => False
     end.

(** A second sample record, with another [id]. *)
Definition cityB : LocationData :=
  mkLocationData (js "2") (js "B") (80 # 1) (9 # 1) (4 # 1) (2 # 1) (1 # 1).

(** A reply whose text is the JSON text [null]. *)
Definition nullReply : reply := Resolved (mkResponse (Some (js "null")) (Some JNull)).

(** * Properties *)

(** ** The merge of [DataVisualizer] *)

Section Merge.

Implicit Types (data cs : list LocationData) (comparisonData : option (list LocationData)).
Implicit Types (d c : LocationData) (row : gmap jsstring jsval).

Lemma find_is_Some_iff {A} (f : A -> bool) (l : list A) :
  is_Some (List.find f l) <-> exists x, x ∈ l /\ f x = true.
Proof.
  induction l as [|a l IH]; simpl.
  - split; [intros [? [=]] | intros (x & Hx & _); inversion Hx].
  - destruct (f a) eqn:Hfa.
    + split; [intros _; exists a; split; [left | done] | eauto].
    + rewrite IH. split; intros (x & Hx & Hfx).
      * exists x. split; [by right | done].
      * inversion Hx; subst; [congruence | eauto].
Qed.

(** [find] returns the element at the first index whose element passes. *)
Lemma find_first {A} (f : A -> bool) (l : list A) (j : nat) (x : A) :
  l !! j = Some x -> f x = true ->
  (forall j' y, (j' < j)%nat -> l !! j' = Some y -> f y = false) ->
  List.find f l = Some x.
Proof.
  revert j. induction l as [|a l IH]; intros j Hj Hx Hmin; [done|].
  destruct j as [|j]; simpl in *.
  - injection Hj as ->. by rewrite Hx.
  - rewrite (Hmin 0%nat a); [|lia|done].
    apply (IH j); [done..|]. intros j' y ? ?. apply (Hmin (S j') y); [lia|done].
Qed.

Lemma chartData_row data comparisonData i :
  chartData data comparisonData !! i =
  (fun d => spread
     (comparison_fields
        (comparisonData ≫= List.find (fun c => bool_decide (id c = id d))))
     (baseline_fields d)) <$> data !! i.
Proof. unfold chartData. by rewrite list_lookup_fmap. Qed.



Lemma baseline_fields_lookup d :
  baseline_fields d !! js "name" = Some (VString (name d))
  /\ baseline_fields d !! js "Population" = Some (VNumber (population d))
  /\ baseline_fields d !! js "Wages" = Some (VNumber (wages d))
  /\ baseline_fields d !! js "Rents" = Some (VNumber (rents d)).
Proof. by vm_compute. Qed.

Lemma comparison_fields_lookup c :
  comparison_fields (Some c) !! js "Pop (CF)" = Some (VNumber (population c))
  /\ comparison_fields (Some c) !! js "Wages (CF)" = Some (VNumber (wages c))
  /\ comparison_fields (Some c) !! js "Rents (CF)" = Some (VNumber (rents c)).
Proof. by vm_compute. Qed.

(** A key of one group is not a key of the other. *)
Lemma comparison_fields_not_baseline comp :
  comparison_fields comp !! js "name" = None
  /\ comparison_fields comp !! js "Population" = None
  /\ comparison_fields comp !! js "Wages" = None
  /\ comparison_fields comp !! js "Rents" = None.
Proof. destruct comp; by vm_compute. Qed.

Lemma baseline_fields_not_comparison d :
  baseline_fields d !! js "Pop (CF)" = None
  /\ baseline_fields d !! js "Wages (CF)" = None
  /\ baseline_fields d !! js "Rents (CF)" = None.
Proof. by vm_compute. Qed.

(** The row built for [d] when the lookup in the comparison data gave
    [comp]. *)
Lemma row_lookup d comp :
  let row := spread (comparison_fields comp) (baseline_fields d) in
  row !! js "name" = Some (VString (name d))
  /\ row !! js "Population" = Some (VNumber (population d))
  /\ row !! js "Wages" = Some (VNumber (wages d))
  /\ row !! js "Rents" = Some (VNumber (rents d))
  /\ row !! js "Pop (CF)" = VNumber ∘ population <$> comp
  /\ row !! js "Wages (CF)" = VNumber ∘ wages <$> comp
  /\ row !! js "Rents (CF)" = VNumber ∘ rents <$> comp.
Proof.
  intros row. subst row. unfold spread.
  destruct (baseline_fields_lookup d) as (Hn & Hp & Hw & Hr).
  destruct (comparison_fields_not_baseline comp) as (Hn' & Hp' & Hw' & Hr').
  destruct (baseline_fields_not_comparison d) as (Hcp & Hcw & Hcr).
  repeat split.
  1-4: by rewrite lookup_union_r.
  all: destruct comp as [c|]; simpl;
    [ rewrite lookup_union_l by done; apply (comparison_fields_lookup c)
    | by rewrite lookup_union_r ].
Qed.

(** X8: comparison records whose [id] is the [id] of no baseline record can
    be removed without changing the merge. *)
Lemma chartData_unmatched_ignored data cs :
  chartData data (Some cs)
  = chartData data (Some (filter (fun c => id c ∈ id <$> data) cs)).
Proof.
  unfold chartData. apply list_fmap_ext. intros i d Hd%list_elem_of_lookup_2. simpl.
  do 2 f_equal. induction cs as [|c cs IH]; [done|].
  rewrite filter_cons. simpl. case_bool_decide as Hid.
  - rewrite decide_True; [simpl; by rewrite bool_decide_true|].
    rewrite Hid. by apply list_elem_of_fmap_2.
  - rewrite IH. case_decide; [simpl; by rewrite bool_decide_false|done].
Qed.

(** An absent comparison sequence merges like an empty one. *)
Lemma chartData_absent_is_empty data : chartData data None = chartData data (Some []).
Proof. done. Qed.

(** C2: the merge yields one row per baseline record, in baseline order; the
    row at position [i] carries the name, population, wages and rents of the
    baseline record at position [i]; it carries the three
    counterfactual-labelled properties exactly when the comparison sequence is
    present and contains a record with the same [id], and their values are
    then the population, wages and rents of such a record. *)
Theorem C2_merge_row_per_baseline_record data comparisonData :
  length (chartData data comparisonData) = length data
  /\ forall i d,
       data !! i = Some d ->
       exists row,
         chartData data comparisonData !! i = Some row
         /\ row !! js "name" = Some (VString (name d))
         /\ row !! js "Population" = Some (VNumber (population d))
         /\ row !! js "Wages" = Some (VNumber (wages d))
         /\ row !! js "Rents" = Some (VNumber (rents d))
         /\ let matched :=
              exists cs c, comparisonData = Some cs /\ c ∈ cs /\ id c = id d in
            (is_Some (row !! js "Pop (CF)") <-> matched)
            /\ (is_Some (row !! js "Wages (CF)") <-> matched)
            /\ (is_Some (row !! js "Rents (CF)") <-> matched)
            /\ (matched ->
                exists cs c,
                  comparisonData = Some cs /\ c ∈ cs /\ id c = id d
                  /\ row !! js "Pop (CF)" = Some (VNumber (population c))
                  /\ row !! js "Wages (CF)" = Some (VNumber (wages c))
                  /\ row !! js "Rents (CF)" = Some (VNumber (rents c))).
Proof.
  split; [unfold chartData; by rewrite length_fmap|]. intros i d Hd.
  eexists. rewrite chartData_row, Hd. split; [done|].
  set (comp := comparisonData ≫= _).
  destruct (row_lookup d comp) as (Hn & Hp & Hw & Hr & Hcp & Hcw & Hcr).
  do 4 (split; [done|]). intros matched.
  assert (is_Some comp <-> matched) as Hcomp.
  { subst comp matched. destruct comparisonData as [cs|]; simpl.
    - rewrite find_is_Some_iff. split.
      + intros (c & Hc & Hid%bool_decide_eq_true). by exists cs, c.
      + intros (cs' & c & [= <-] & Hc & Hid). exists c. by rewrite bool_decide_true.
    - split; [intros [? [=]] | intros (? & ? & [=] & _)]. }
  rewrite Hcp, Hcw, Hcr, !fmap_is_Some. do 3 (split; [done|]).
  intros [c Hfound]%Hcomp. rewrite Hfound. subst comp.
  destruct comparisonData as [cs|]; [|done]. simpl in Hfound.
  apply find_some in Hfound as [Hin Hid%bool_decide_eq_true].
  exists cs, c. by rewrite <- list_elem_of_In in Hin.
Qed.

Lemma C2_merge_row_per_baseline_record_witness :
  [cityA] !! 0%nat = Some cityA
  /\ exists row,
       chartData [cityA] (Some [cityA_shocked]) !! 0%nat = Some row
       /\ row !! js "name" = Some (VString (js "A"))
       /\ row !! js "Population" = Some (VNumber (100 # 1))
       /\ row !! js "Wages" = Some (VNumber (10 # 1))
       /\ row !! js "Rents" = Some (VNumber (5 # 1))
       /\ row !! js "Pop (CF)" = Some (VNumber (120 # 1))
       /\ row !! js "Wages (CF)" = Some (VNumber (12 # 1))
       /\ row !! js "Rents (CF)" = Some (VNumber (6 # 1)).
Proof.
  split; [reflexivity|].
  destruct (proj2 (C2_merge_row_per_baseline_record [cityA] (Some [cityA_shocked]))
              0%nat cityA eq_refl)
    as (row & Hrow & Hname & Hpop & Hwages & Hrents & _ & _ & _ & Hvalues).
  destruct Hvalues as (cs & c & Hcs & Hc & _ & Hcp & Hcw & Hcr).
  { exists [cityA_shocked], cityA_shocked.
    split; [reflexivity|]. split; [apply list_elem_of_here|reflexivity]. }
  injection Hcs as <-. apply list_elem_of_singleton in Hc. subst c.
  exists row. by repeat split.
Defined.

(** C8, as the code has it: with several comparison records of one [id] the
    merge still yields its row, and the counterfactual-labelled properties
    are those of the first such record of the comparison sequence. *)
Theorem C8_merge_first_match_wins data cs i d j c :
  data !! i = Some d ->
  cs !! j = Some c ->
  id c = id d ->
  (forall j' c', (j' < j)%nat -> cs !! j' = Some c' -> id c' <> id d) ->
  exists row,
    chartData data (Some cs) !! i = Some row
    /\ row !! js "Pop (CF)" = Some (VNumber (population c))
    /\ row !! js "Wages (CF)" = Some (VNumber (wages c))
    /\ row !! js "Rents (CF)" = Some (VNumber (rents c)).
Proof.
  intros Hd Hc Hid Hfirst. eexists. rewrite chartData_row, Hd.
  split; [done|]. simpl.
  rewrite (find_first _ cs j c Hc).
  - by destruct (row_lookup d (Some c)) as (_ & _ & _ & _ & -> & -> & ->).
  - by apply bool_decide_eq_true.
  - intros j' c' Hlt Hc'. apply bool_decide_eq_false. eauto.
Qed.

Lemma C8_merge_first_match_wins_witness :
  exists row,
    chartData [cityA] (Some [cityA_shocked; cityA_again]) !! 0%nat = Some row
    /\ row !! js "Pop (CF)" = Some (VNumber (population cityA_shocked))
    /\ row !! js "Wages (CF)" = Some (VNumber (wages cityA_shocked))
    /\ row !! js "Rents (CF)" = Some (VNumber (rents cityA_shocked)).
Proof.
  apply (C8_merge_first_match_wins
           [cityA] [cityA_shocked; cityA_again] 0 cityA 0 cityA_shocked);
    [reflexivity | reflexivity | reflexivity | intros j' c' Hlt; lia].
Defined.

(** C8 as stated fails: of two comparison records with the [id] of the
    baseline record, the merged row shows the population of the first one
    (120), not of the last one (999). *)
Lemma C8_counterexample_last_record_ignored :
  id cityA_shocked = id cityA_again
  /\ last [cityA_shocked; cityA_again] = Some cityA_again
  /\ chartData [cityA] (Some [cityA_shocked; cityA_again]) !! 0%nat
       ≫= (fun row => row !! js "Pop (CF)")
     = Some (VNumber (120 # 1))
  /\ chartData [cityA] (Some [cityA_shocked; cityA_again]) !! 0%nat
       ≫= (fun row => row !! js "Pop (CF)")
     <> Some (VNumber (population cityA_again)).
Proof. by vm_compute. Qed.



End Merge.

(** ** White space and [trim] *)

Section Trim.

Implicit Types (s rest : jsstring) (c : N).

Lemma trimStart_nil_iff s : trimStart s = [] <-> blank s = true.
Proof.
  induction s as [|c s IH]; simpl; [done|].
  destruct (is_white_space c); simpl; [done|]. split; discriminate.
Qed.

Lemma trimStart_head s c rest : trimStart s = c :: rest -> is_white_space c = false.
Proof.
  induction s as [|a s IH]; simpl; [done|].
  destruct (is_white_space a) eqn:Ha; [done|]. by intros [= <- _].
Qed.

(** [!s.trim()] holds exactly of the blank texts. *)
Lemma trim_nil_iff s : trim s = [] <-> blank s = true.
Proof.
  rewrite <- trimStart_nil_iff. unfold trim, trimEnd. split.
  - intros H. destruct (trimStart s) as [|c rest] eqn:Hs; [done|].
    apply trimStart_head in Hs.
    apply (f_equal reverse) in H. rewrite reverse_involutive in H.
    change (reverse []) with (@nil N) in H.
    apply trimStart_nil_iff in H. unfold blank in H.
    rewrite forallb_forall in H. specialize (H c).
    rewrite H in Hs; [done|]. apply list_elem_of_In, elem_of_reverse. left.
  - by intros ->.
Qed.

Lemma trim_blank s : blank s = true -> truthy_string (trim s) = false.
Proof. intros H%trim_nil_iff. by rewrite H. Qed.

Lemma trim_not_blank s : blank s = false -> truthy_string (trim s) = true.
Proof.
  intros H. destruct (trim s) eqn:Ht; [|done].
  apply trim_nil_iff in Ht. congruence.
Qed.

End Trim.

(** ** The handlers of [App], one call at a time *)

Section Handlers.

Implicit Types (st : AppState) (w : world) (r : reply) (replies : list reply).
Implicit Types (v : json) (c : N) (t : jsstring) (p : option json).

Lemma text_or_truthy resp fallback :
  truthy_string (js fallback) = true -> truthy_string (text_or resp fallback) = true.
Proof.
  intros H. unfold text_or. destruct (text resp) as [t|]; [|done].
  by destruct (truthy_string t) eqn:Ht.
Qed.

(** No handler ever throws: whatever the replies, a handler that is not left
    suspended returns. *)
Lemma handlers_never_throw b st r e : (invoke (onClick b) [r] st).2 <> Threw e.
Proof.
  unfold invoke. destruct b; simpl.
  - unfold handleProblemSubmit.
    destruct (truthy_string (trim (problemInput st))); [|done].
    by destruct r as [|[[[|c t]|] p]].
  - by destruct r as [|[[[|c t]|] [v|]]].
  - unfold handleProceedToAnalysis.
    destruct (truthy (baselineData st)); [|done].
    destruct (truthy_string (analysisReport st)); [done|].
    by destruct r as [|[[[|c t]|] p]].
  - done.
  - unfold handleRunCounterfactual.
    destruct (truthy (baselineData st)); [|done].
    destruct (truthy_string (trim (counterfactualInput st))); [|done].
    by destruct r as [|[[[|c t]|] [v|]]].
Qed.

(** A failed call of [handleProblemSubmit], [handleGenerateData] and
    [handleRunCounterfactual] is reported and leaves the workflow as it
    was. *)
Lemma handleProblemSubmit_failure st :
  blank (problemInput st) = false ->
  let o := invoke handleProblemSubmit [Rejected] st in
  workflow (app o.1) = workflow st /\ isProcessing (app o.1) = false
  /\ reports_failure o.
Proof.
  intros Hb%trim_not_blank. unfold invoke, handleProblemSubmit. rewrite Hb. cbn.
  repeat split. right. eexists. apply list_elem_of_lookup. by exists 1%nat.
Qed.

Lemma handleGenerateData_failure st r :
  r = Rejected \/ (exists c t, r = Resolved (mkResponse (Some (c :: t)) None)) ->
  let o := invoke handleGenerateData [r] st in
  workflow (app o.1) = workflow st /\ isProcessing (app o.1) = false
  /\ reports_failure o.
Proof.
  intros [-> | (c & t & ->)]; cbn;
    (repeat split; right; eexists; apply list_elem_of_lookup; by exists 1%nat).
Qed.

Lemma handleRunCounterfactual_failure st r :
  truthy (baselineData st) = true ->
  blank (counterfactualInput st) = false ->
  r = Rejected \/ (exists c t, r = Resolved (mkResponse (Some (c :: t)) None)) ->
  let o := invoke handleRunCounterfactual [r] st in
  workflow (app o.1) = workflow st /\ isProcessing (app o.1) = false
  /\ reports_failure o.
Proof.
  intros Hd Hb%trim_not_blank Hr. unfold invoke, handleRunCounterfactual.
  rewrite Hd, Hb. destruct Hr as [-> | (c & t & ->)]; cbn;
    (repeat split; right; eexists; apply list_elem_of_lookup; by exists 1%nat).
Qed.



(** The sample result passes the validator of the specification and has no
    [totalWelfare]. *)
Lemma sampleResult_valid :
  spec_schema_ok sampleResult = true
  /\ match sampleResult with
     | JObj m => member (js "totalWelfare") m = None
     | _ => False
     end.
Proof. by vm_compute. Qed.

(** C4 fails on the code for [handleProceedToAnalysis]: the view is driven
    to Data Generation with a baseline, the analysis is requested and the
    call is rejected; the handler nevertheless stores a report and moves to
    Estimation/Analysis, and shows no alert. *)
Theorem C4_failed_analysis_call_is_committed :
  exists s0 s1,
    steps mount [Click BuildModel; Settle 0 sampleTextReply;
                 Click GenerateSyntheticData; Settle 0 sampleDataReply;
                 Click ProceedToAnalysis] = Some s0
    /\ step s0 (Settle 0 Rejected) = Some s1
    /\ workflow (app (current s0))
       = (DATA_GENERATION, js "Workers choose a location.", sampleResult, [], JNull)
    /\ workflow (app (current s1))
       = (ESTIMATION_ANALYSIS, js "Workers choose a location.", sampleResult,
          js "Error generating analysis report.", JNull)
    /\ printed (current s1) = [ConsoleError (js "Error generating analysis:")].
Proof. do 2 eexists. by vm_compute. Qed.

(** C6: with a baseline present, a run of [handleProceedToAnalysis] calls
    the service only when no report is stored, and a report is stored when it
    ends; so of two runs in succession the second sends nothing, keeps the
    report of the first, and both end at Estimation/Analysis: the service is
    called at most once. *)
Theorem C6_analysis_report_memoized st r1 r2 :
  truthy (baselineData st) = true ->
  let first := invoke handleProceedToAnalysis [r1] st in
  let second := invoke handleProceedToAnalysis [r2] (app first.1) in
  first.2 = Returned tt /\ second.2 = Returned tt
  /\ sent first.1 = (if truthy_string (analysisReport st) then []
                    else [AnalysisRequest (modelLogic st) (baselineData st)])
  /\ sent second.1 = []
  /\ (length (sent first.1) + length (sent second.1) <= 1)%nat
  /\ stage (app first.1) = ESTIMATION_ANALYSIS
  /\ stage (app second.1) = ESTIMATION_ANALYSIS
  /\ analysisReport (app second.1) = analysisReport (app first.1)
  /\ (if truthy_string (analysisReport st)
      then analysisReport (app first.1) = analysisReport st
      else truthy_string (analysisReport (app first.1)) = true).
Proof.
  intros Hb first second. subst first second.
  unfold invoke, handleProceedToAnalysis. rewrite Hb. cbn [negb].
  destruct (truthy_string (analysisReport st)) eqn:Hrep; cbn.
  - rewrite Hb, Hrep. cbn. repeat apply conj; (done || lia).
  - destruct r1 as [|resp]; cbn; rewrite Hb.
    + cbn. repeat apply conj; (done || lia).
    + rewrite text_or_truthy by done. cbn.
      repeat apply conj; (done || lia || by apply text_or_truthy).
Qed.

Lemma C6_analysis_report_memoized_witness :
  truthy (baselineData atDataGeneration) = true
  /\ sent (invoke handleProceedToAnalysis [sampleTextReply]
             (app (invoke handleProceedToAnalysis [sampleTextReply] atDataGeneration).1)).1
     = [].
Proof.
  split; [reflexivity|].
  exact (proj1 (proj2 (proj2 (proj2
    (C6_analysis_report_memoized atDataGeneration sampleTextReply sampleTextReply
       eq_refl))))).
Defined.

(** C7, as the code has it: with a blank problem text [handleProblemSubmit],
    and with a blank shock text [handleRunCounterfactual], returns at once:
    nothing is sent to the service, nothing is printed or thrown, and the
    state is the one before. *)
Theorem C7_blank_input_returns_silently st1 st2 replies1 replies2 :
  blank (problemInput st1) = true ->
  blank (counterfactualInput st2) = true ->
  invoke handleProblemSubmit replies1 st1 = (freshWorld st1, Returned tt)
  /\ invoke handleRunCounterfactual replies2 st2 = (freshWorld st2, Returned tt).
Proof.
  intros H1%trim_blank H2%trim_blank.
  unfold invoke, handleProblemSubmit, handleRunCounterfactual.
  rewrite H1, H2. by rewrite orb_true_r.
Qed.

Lemma C7_blank_input_returns_silently_witness :
  blank (problemInput (with_problemInput (js "   ") initialState)) = true
  /\ blank (counterfactualInput (with_counterfactualInput [] atDataGeneration)) = true
  /\ invoke handleProblemSubmit [sampleTextReply]
       (with_problemInput (js "   ") initialState)
     = (freshWorld (with_problemInput (js "   ") initialState), Returned tt).
Proof.
  split; [reflexivity|]. split; [reflexivity|].
  exact (proj1 (C7_blank_input_returns_silently
                  (with_problemInput (js "   ") initialState)
                  (with_counterfactualInput [] atDataGeneration)
                  [sampleTextReply] [] eq_refl eq_refl)).
Defined.

(** C7 as stated fails: on a problem text of three spaces
    [handleProblemSubmit] returns normally and prints nothing, so no failure
    of any kind is reported. *)
Lemma C7_counterexample_blank_input_no_failure :
  blank (js "   ") = true
  /\ (invoke handleProblemSubmit [] (with_problemInput (js "   ") initialState)).2
     = Returned tt
  /\ ~ reports_failure
         (invoke handleProblemSubmit [] (with_problemInput (js "   ") initialState)).
Proof.
  split; [reflexivity|]. split; [reflexivity|].
  intros [[e He] | [m Hm]]; [discriminate He|]. vm_compute in Hm. inversion Hm.
Qed.

(** C9: a rejected call inside [analyzeEquilibrium] is caught there and the
    fixed text is returned as a normal result; [handleProceedToAnalysis],
    started with a baseline and without a report, then stores that text as
    the report and moves to Estimation/Analysis, with no alert. *)
Theorem C9_analysis_failure_swallowed st ctx data w :
  truthy (baselineData st) = true ->
  analysisReport st = [] ->
  perform (analyzeEquilibrium ctx data) [Rejected] w
  = (mkWorld (app w) (sent w ++ [AnalysisRequest ctx data])
       (printed w ++ [ConsoleError (js "Error generating analysis:")]),
     Returned (js "Error generating analysis report."))
  /\ invoke handleProceedToAnalysis [Rejected] st
     = (mkWorld
          (with_isProcessing false
             (with_stage ESTIMATION_ANALYSIS
                (with_analysisReport (js "Error generating analysis report.") st)))
          [AnalysisRequest (modelLogic st) (baselineData st)]
          [ConsoleError (js "Error generating analysis:")],
        Returned tt).
Proof.
  intros Hb Hrep. split; [done|].
  unfold invoke, handleProceedToAnalysis. by rewrite Hb, Hrep.
Qed.

Lemma C9_analysis_failure_swallowed_witness :
  truthy (baselineData atDataGeneration) = true
  /\ analysisReport atDataGeneration = []
  /\ stage (app (invoke handleProceedToAnalysis [Rejected] atDataGeneration).1)
     = ESTIMATION_ANALYSIS.
Proof.
  split; [reflexivity|]. split; [reflexivity|].
  rewrite (proj2 (C9_analysis_failure_swallowed atDataGeneration [] JNull
                    (freshWorld atDataGeneration) eq_refl eq_refl)).
  reflexivity.
Defined.

End Handlers.

(** ** The view: sessions driven by clicks, edits and replies *)

Section View.

Implicit Types (s : session) (e : event) (es : list event) (st : AppState) (w : world).

Ltac finish_from :=
  let r := fresh "r" in let w := fresh "w" in let Hw := fresh "Hw" in
  intros r w Hw;
  destruct r as [|[[[|? ?]|] [?|]]]; cbn;
  (eexists; split; [reflexivity|]; split; [reflexivity|]; cbn;
   first [ by left | by right ]).

Lemma mount_invariant : view_invariant mount.
Proof. reflexivity. Qed.

Lemma step_invariant s e s' :
  view_invariant s -> step s e = Some s' ->
  view_invariant s'
  /\ stage_moves (stage (app (current s))) (stage (app (current s'))).
Proof.
  destruct s as [[st snt prn] [|k [|k' infl]]]; unfold view_invariant; simpl;
    [intros Hidle | intros (Hbusy & Hstage & Hk) | done].
  - (* nothing outstanding *)
    destruct e as [b|t v|i r]; simpl; [| |done].
    + destruct b; simpl; rewrite ?Hidle; simpl.
      * case_bool_decide as Hg; [simpl|done].
        unfold handleProblemSubmit, dispatch.
        destruct (truthy_string (trim (problemInput st))); cbn;
          intros [= <-]; simpl; rewrite ?Hg; (split; [|by left]); [|done].
        split; [done|]. split; [done|]. finish_from.
      * case_bool_decide as Hg; [simpl|done].
        unfold handleGenerateData, dispatch. cbn.
        intros [= <-]; simpl; rewrite ?Hg; (split; [|by left]).
        split; [done|]. split; [done|]. finish_from.
      * destruct (stage st) eqn:Hg; simpl; rewrite ?andb_false_r; try done.
        destruct (truthy (baselineData st)) eqn:Hd; simpl; [|done].
        unfold handleProceedToAnalysis, dispatch. rewrite Hd.
        destruct (truthy_string (analysisReport st)); cbn;
          intros [= <-]; simpl; rewrite ?Hg.
        -- split; [done|by right].
        -- split; [|by left]. split; [done|]. split; [done|]. finish_from.
      * destruct (stage st) eqn:Hg; simpl; rewrite ?andb_false_r; try done.
        destruct (truthy (baselineData st)) eqn:Hd; simpl; [|done].
        intros [= <-]; simpl. rewrite ?Hg. split; [done|by right].
      * case_bool_decide as Hg; [simpl|done].
        destruct (truthy (baselineData st)) eqn:Hd; simpl; [|done].
        unfold handleRunCounterfactual, dispatch. rewrite Hd.
        destruct (truthy_string (trim (counterfactualInput st))); cbn;
          intros [= <-]; simpl; rewrite ?Hg; (split; [|by left]); [|done].
        split; [done|]. split; [done|]. finish_from.
    + destruct (editable t st); [|done]. destruct t; intros [= <-]; simpl;
        (split; [done|by left]).
  - (* one handler suspended *)
    destruct e as [b|t v|i r]; simpl.
    + destruct b; simpl; rewrite ?Hbusy, ?andb_false_r; try done.
      destruct (stage st); simpl; rewrite ?andb_false_r; try done.
    + destruct (editable t st); [|done]. destruct t; intros [= <-]; simpl;
        (split; [done|by left]).
    + destruct i as [|i]; simpl; [|done].
      destruct (Hk r (mkWorld st snt prn) eq_refl) as (w' & Hrun & Hflag & Hmove).
      unfold dispatch. rewrite Hrun. intros [= <-]. simpl.
      split; [done|]. destruct Hmove as [-> | Hmove]; [by left|by right].
Qed.

Lemma steps_invariant es s s' :
  view_invariant s -> steps s es = Some s' -> view_invariant s'.
Proof.
  revert s. induction es as [|e es IH]; intros s Hs; simpl.
  - by intros [= <-].
  - destruct (step s e) as [s1|] eqn:He; simpl; [|done].
    apply IH. by apply (step_invariant s e).
Qed.

(** C1, as the code has it: in every session reached through the view,
    whatever happens next (a click on a button that is rendered and enabled,
    an edit, the settling of the outstanding call) leaves the stage where it
    is or moves it to its immediate successor in the order of the navigator.
    The handlers check nothing; the view offers each of them at one stage
    only. *)
Theorem C1_view_moves_stage_to_successor_only es s e s' :
  steps mount es = Some s ->
  step s e = Some s' ->
  stage (app (current s')) = stage (app (current s))
  \/ successor (stage (app (current s))) = Some (stage (app (current s'))).
Proof.
  intros Hs He. apply (step_invariant s e s'); [|done].
  apply (steps_invariant es mount); [apply mount_invariant|done].
Qed.


Lemma C1_view_moves_stage_to_successor_only_witness :
  let s := default mount (steps mount [Click BuildModel]) in
  let s' := default mount (step s (Settle 0 sampleTextReply)) in
  steps mount [Click BuildModel] = Some s
  /\ step s (Settle 0 sampleTextReply) = Some s'
  /\ (stage (app (current s')) = stage (app (current s))
      \/ successor (stage (app (current s))) = Some (stage (app (current s')))).
Proof.
  intros s s'. split; [reflexivity|]. split; [reflexivity|].
  apply (C1_view_moves_stage_to_successor_only
           [Click BuildModel] s (Settle 0 sampleTextReply) s'); reflexivity.
Defined.

(** C1 as stated fails: the handlers themselves accept any stage.  At
    Problem Definition, whose successor is Model Construction,
    [handleGenerateData] with a good reply ends at Data Generation and
    [handleProceedToCounterfactual] ends at Counterfactual; both return
    normally and report no failure. *)
Lemma C1_counterexample_handlers_skip_stages :
  stage initialState = PROBLEM_DEFINITION
  /\ successor PROBLEM_DEFINITION = Some MODEL_CONSTRUCTION
  /\ stage (app (invoke handleGenerateData [sampleDataReply] initialState).1)
     = DATA_GENERATION
  /\ (invoke handleGenerateData [sampleDataReply] initialState).2 = Returned tt
  /\ ~ reports_failure (invoke handleGenerateData [sampleDataReply] initialState)
  /\ stage (app (invoke handleProceedToCounterfactual [] initialState).1)
     = COUNTERFACTUAL
  /\ (invoke handleProceedToCounterfactual [] initialState).2 = Returned tt
  /\ ~ reports_failure (invoke handleProceedToCounterfactual [] initialState).
Proof.
  repeat apply conj; try reflexivity;
    (intros [[e He] | [m Hm]]; [discriminate He | vm_compute in Hm; inversion Hm]).
Qed.



(** A whole session: every stage in turn, each call settled before the next
    button is clicked, ending with a counterfactual result. *)
Example session_through_all_stages :
  exists s,
    steps mount [Click BuildModel; Settle 0 sampleTextReply;
                 Click GenerateSyntheticData; Settle 0 sampleDataReply;
                 Click ProceedToAnalysis; Settle 0 sampleTextReply;
                 Click RunCounterfactualAnalysis;
                 Click RunSimulation; Settle 0 sampleDataReply] = Some s
    /\ workflow (app (current s))
       = (COUNTERFACTUAL, js "Workers choose a location.", sampleResult,
          js "Workers choose a location.", sampleResult)
    /\ inflight s = [] /\ isProcessing (app (current s)) = false
    /\ length (sent (current s)) = 4%nat.
Proof. eexists. by vm_compute. Qed.

End View.

(** ** The service functions and the handlers, on every reply *)

Section Outcomes.

Implicit Types (st : AppState) (w : world) (r : reply) (replies : list reply).
Implicit Types (resp : response) (b : button).

(** X1: [generateModelLogic] sends one request and leaves the state alone;
    when the call resolves it returns a text that is never empty, the text of
    the response or, for a response without text, the placeholder; when the
    call is rejected it logs one line and throws the failure on. *)
Theorem generateModelLogic_outcome problemDescription r w :
  let o := perform (generateModelLogic problemDescription) [r] w in
  app o.1 = app w
  /\ sent o.1 = sent w ++ [ModelLogicRequest problemDescription]
  /\ match r with
     | Rejected =>
         o.2 = Threw ServiceFailure
         /\ printed o.1
            = printed w ++ [ConsoleError (js "Error generating model logic:")]
     | Resolved resp =>
         exists s,
           o.2 = Returned s
           /\ truthy_string s = true
           /\ s = match text resp with
                  | Some (c :: t) => c :: t
                  | _ => js "No response generated."
                  end
           /\ printed o.1 = printed w
     end.
Proof.
  destruct r as [|[[[|c t]|] p]]; cbn; repeat apply conj; try done;
    eexists; by repeat apply conj.
Qed.

(** X2: [analyzeEquilibrium] never throws: whatever the reply, it sends one
    request, leaves the state alone and returns a text that is not empty. *)
Theorem analyzeEquilibrium_always_returns_text modelContext data r w :
  let o := perform (analyzeEquilibrium modelContext data) [r] w in
  app o.1 = app w
  /\ sent o.1 = sent w ++ [AnalysisRequest modelContext data]
  /\ exists s, o.2 = Returned s /\ truthy_string s = true.
Proof.
  destruct r as [|[[[|c t]|] p]]; cbn; repeat apply conj; try done;
    eexists; by repeat apply conj.
Qed.

(** X3: [generateSyntheticData] and [runCounterfactual] treat a reply alike:
    each sends one request, leaves the state alone, and returns the value read
    from the reply; when there is none (rejected call, text that is no JSON)
    each logs one line of its own and throws. *)
Theorem json_services_outcome modelContext originalData changeDescription r w :
  let o1 := perform (generateSyntheticData modelContext) [r] w in
  let o2 := perform (runCounterfactual originalData changeDescription) [r] w in
  app o1.1 = app w /\ app o2.1 = app w
  /\ sent o1.1 = sent w ++ [SyntheticDataRequest modelContext]
  /\ sent o2.1 = sent w ++ [CounterfactualRequest originalData changeDescription]
  /\ match json_of_reply r with
     | Some v =>
         o1.2 = Returned v /\ o2.2 = Returned v
         /\ printed o1.1 = printed w /\ printed o2.1 = printed w
     | None =>
         (exists e, o1.2 = Threw e /\ o2.2 = Threw e)
         /\ printed o1.1 = printed w ++ [ConsoleError (js "Error generating data:")]
         /\ printed o2.1
            = printed w ++ [ConsoleError (js "Error generating counterfactual:")]
     end.
Proof.
  destruct r as [|[[[|c t]|] [v|]]]; cbn; repeat apply conj; try done;
    eexists; by repeat apply conj.
Qed.

(** X4: a handler that gets its reply runs to the end and returns: it never
    throws and is not left suspended; it sends at most one request, leaves
    both text inputs alone, and started with the in-flight flag clear it
    ends with the flag clear. *)
Theorem handlers_return_and_clear_flag b st r :
  isProcessing st = false ->
  let o := invoke (onClick b) [r] st in
  o.2 = Returned tt
  /\ isProcessing (app o.1) = false
  /\ (length (sent o.1) <= 1)%nat
  /\ problemInput (app o.1) = problemInput st
  /\ counterfactualInput (app o.1) = counterfactualInput st.
Proof.
  intros Hflag. unfold invoke. destruct b; simpl.
  - unfold handleProblemSubmit.
    destruct (truthy_string (trim (problemInput st))); cbn;
      [destruct r as [|[[[|c t]|] p]]; cbn|]; repeat apply conj; (done || lia).
  - destruct r as [|[[[|c t]|] [v|]]]; cbn; repeat apply conj; (done || lia).
  - unfold handleProceedToAnalysis.
    destruct (truthy (baselineData st)); cbn;
      [destruct (truthy_string (analysisReport st)); cbn;
       [|destruct r as [|[[[|c t]|] p]]; cbn]|];
      repeat apply conj; (done || lia).
  - cbn. repeat apply conj; (done || lia).
  - unfold handleRunCounterfactual.
    destruct (truthy (baselineData st)); cbn;
      [destruct (truthy_string (trim (counterfactualInput st))); cbn;
       [destruct r as [|[[[|c t]|] [v|]]]; cbn|]|];
      repeat apply conj; (done || lia).
Qed.

Lemma handlers_return_and_clear_flag_witness :
  isProcessing initialState = false
  /\ (invoke (onClick BuildModel) [Rejected] initialState).2 = Returned tt
  /\ isProcessing (app (invoke (onClick BuildModel) [Rejected] initialState).1) = false.
Proof.
  split; [reflexivity|].
  destruct (handlers_return_and_clear_flag BuildModel initialState Rejected eq_refl)
    as (Hret & Hflag & _).
  by split.
Defined.

(** X5: with a problem text that is not blank, every resolved reply moves
    [handleProblemSubmit] to Model Construction, a reply without text
    included: the model stored is then the placeholder, and in every case it
    is not empty.  The request carries the problem text as typed, untrimmed;
    nothing else of the state changes and nothing is printed. *)
Theorem handleProblemSubmit_resolved st resp :
  blank (problemInput st) = false ->
  invoke handleProblemSubmit [Resolved resp] st
  = (mkWorld
       (with_isProcessing false
          (with_stage MODEL_CONSTRUCTION
             (with_modelLogic (text_or resp "No response generated.") st)))
       [ModelLogicRequest (problemInput st)] [],
     Returned tt)
  /\ truthy_string (text_or resp "No response generated.") = true.
Proof.
  intros Hb%trim_not_blank. split; [|by apply text_or_truthy].
  unfold invoke, handleProblemSubmit. rewrite Hb. by destruct resp as [[[|c t]|] p].
Qed.

Lemma handleProblemSubmit_resolved_witness :
  blank (problemInput initialState) = false
  /\ stage (app (invoke handleProblemSubmit [emptyReply] initialState).1)
     = MODEL_CONSTRUCTION
  /\ modelLogic (app (invoke handleProblemSubmit [emptyReply] initialState).1)
     = js "No response generated.".
Proof.
  split; [reflexivity|]. unfold emptyReply.
  rewrite (proj1 (handleProblemSubmit_resolved initialState (mkResponse None None)
                    eq_refl)).
  by split.
Defined.

(** X6: [handleRunCounterfactual] writes nothing but the counterfactual
    result (and the flag): stage, model, baseline, report and both inputs are
    as before, whatever the state and the reply.  With a baseline and a shock
    text that is not blank, the result stored afterwards is the value read
    from the reply, whatever was stored before, and the previous result is
    kept when the call fails. *)
Theorem handleRunCounterfactual_replaces_result st r :
  let o := invoke handleRunCounterfactual [r] st in
  o.2 = Returned tt
  /\ stage (app o.1) = stage st
  /\ modelLogic (app o.1) = modelLogic st
  /\ baselineData (app o.1) = baselineData st
  /\ analysisReport (app o.1) = analysisReport st
  /\ problemInput (app o.1) = problemInput st
  /\ counterfactualInput (app o.1) = counterfactualInput st
  /\ counterfactualData (app o.1)
     = if truthy (baselineData st) && negb (blank (counterfactualInput st))
       then default (counterfactualData st) (json_of_reply r)
       else counterfactualData st.
Proof.
  unfold invoke, handleRunCounterfactual.
  destruct (truthy (baselineData st)); cbn; [|done].
  destruct (blank (counterfactualInput st)) eqn:Hb.
  - rewrite (trim_blank _ Hb). done.
  - rewrite (trim_not_blank _ Hb). by destruct r as [|[[[|c t]|] [v|]]].
Qed.

(** X7: without baseline data ([null], or any other falsy value) both
    [handleProceedToAnalysis] and [handleRunCounterfactual] return at once:
    nothing is sent or printed and the state is the one before, even when a
    shock text is given. *)
Theorem handlers_without_baseline_do_nothing st replies :
  truthy (baselineData st) = false ->
  invoke handleProceedToAnalysis replies st = (freshWorld st, Returned tt)
  /\ invoke handleRunCounterfactual replies st = (freshWorld st, Returned tt).
Proof.
  intros Hb. unfold invoke, handleProceedToAnalysis, handleRunCounterfactual.
  by rewrite Hb.
Qed.

Lemma handlers_without_baseline_do_nothing_witness :
  truthy (baselineData initialState) = false
  /\ invoke handleRunCounterfactual [sampleDataReply] initialState
     = (freshWorld initialState, Returned tt).
Proof.
  split; [reflexivity|].
  exact (proj2 (handlers_without_baseline_do_nothing
                  initialState [sampleDataReply] eq_refl)).
Defined.

End Outcomes.

(** ** More on the merge and on the navigator *)

Section MergeMore.

Implicit Types (data cs : list LocationData) (d c : LocationData).

(** In a sequence whose [id]s are pairwise different, [find] by [id] returns
    the one record that has it. *)
Lemma find_by_id_unique cs c :
  NoDup (id <$> cs) -> c ∈ cs ->
  List.find (fun c' => bool_decide (id c' = id c)) cs = Some c.
Proof.
  induction cs as [|a cs IH]; intros Hnd Hc; [by inversion Hc|].
  rewrite fmap_cons in Hnd. apply NoDup_cons in Hnd as [Ha Hnd]. simpl.
  case_bool_decide as Hid.
  - apply elem_of_cons in Hc as [->|Hc]; [done|].
    exfalso. apply Ha. rewrite Hid. by apply list_elem_of_fmap_2.
  - apply elem_of_cons in Hc as [->|Hc]; [done|]. by apply IH.
Qed.

Lemma find_by_id_perm cs cs' x :
  NoDup (id <$> cs) -> cs ≡ₚ cs' ->
  List.find (fun c => bool_decide (id c = x)) cs
  = List.find (fun c => bool_decide (id c = x)) cs'.
Proof.
  intros Hnd Hp.
  assert (NoDup (id <$> cs')) as Hnd' by by rewrite <- Hp.
  destruct (List.find _ cs) as [c|] eqn:Hfind.
  - apply find_some in Hfind as [Hin Hid%bool_decide_eq_true].
    apply list_elem_of_In in Hin. rewrite Hp in Hin. subst x.
    symmetry. by apply find_by_id_unique.
  - destruct (List.find _ cs') as [c'|] eqn:Hfind'; [|done].
    apply find_some in Hfind' as [Hin Hid].
    apply list_elem_of_In in Hin. rewrite <- Hp in Hin.
    apply list_elem_of_In in Hin.
    by rewrite (find_none _ _ Hfind c' Hin) in Hid.
Qed.

(** X9: when the [id]s of the comparison records are pairwise different,
    their order does not matter to the merge. *)
Theorem chartData_comparison_order_irrelevant data cs cs' :
  NoDup (id <$> cs) -> cs ≡ₚ cs' ->
  chartData data (Some cs) = chartData data (Some cs').
Proof.
  intros Hnd Hp. unfold chartData. apply list_fmap_ext. intros i d _. simpl.
  by rewrite (find_by_id_perm cs cs' (id d) Hnd Hp).
Qed.

Lemma chartData_comparison_order_irrelevant_witness :
  NoDup (id <$> [cityA_shocked; cityB])
  /\ chartData [cityA] (Some [cityA_shocked; cityB])
     = chartData [cityA] (Some [cityB; cityA_shocked]).
Proof.
  assert (NoDup (id <$> [cityA_shocked; cityB])) as Hnd.
  { apply (bool_decide_unpack _). by vm_compute. }
  split; [exact Hnd|].
  apply (chartData_comparison_order_irrelevant _ _ _ Hnd), Permutation_swap.
Defined.



Lemma find_fmap {A} (h : A -> A) (f : A -> bool) (l : list A) :
  List.find f (h <$> l) = h <$> List.find (fun x => f (h x)) l.
Proof.
  induction l as [|a l IH]; [done|]. rewrite fmap_cons. simpl.
  by destruct (f (h a)).
Qed.

(** X11: the fundamentals never reach the chart: whatever amenity and
    productivity the baseline and the comparison records are given, the merge
    is the same. *)
Theorem chartData_ignores_fundamentals
    (a p a' p' : LocationData -> number) data (comparisonData : option (list LocationData)) :
  chartData ((fun d => with_fundamentals (a d) (p d) d) <$> data)
            (fmap (M := list) (fun c => with_fundamentals (a' c) (p' c) c) <$> comparisonData)
  = chartData data comparisonData.
Proof.
  unfold chartData. rewrite <- list_fmap_compose. apply list_fmap_ext.
  intros i d _. simpl. f_equal.
  destruct comparisonData as [cs|]; simpl; [|done].
  rewrite find_fmap. simpl. by destruct (List.find _ cs).
Qed.

End MergeMore.

Section Navigator.

(** X12: every stage is found in [STAGES]; the navigator shows the five
    entries in their order, marks the entry of the current stage active and
    no other, marks completed exactly the entries before it, and draws a
    connector after every entry but the last, green exactly after the
    completed ones. *)
Theorem StageNavigator_marks (currentStage : AppStage) :
  exists current,
    currentIndex currentStage = Some current
    /\ fst <$> STAGES !! current = Some currentStage
    /\ (snd <$> STAGES) = (label <$> StageNavigator currentStage)
    /\ forall index entry,
         StageNavigator currentStage !! index = Some entry ->
         isActive entry = bool_decide (index = current)
         /\ isCompleted entry = bool_decide (index < current)%nat
         /\ connector entry
            = if bool_decide (index < 4)%nat
              then Some (bool_decide (index < current)%nat) else None.
Proof.
  destruct currentStage; eexists; (split; [reflexivity|]);
    (split; [reflexivity|]); (split; [reflexivity|]);
    intros index entry;
    do 5 (destruct index as [|index]; [by intros [= <-]|]); done.
Qed.

Lemma StageNavigator_marks_witness :
  exists entry,
    StageNavigator DATA_GENERATION !! 2%nat = Some entry
    /\ isActive entry = true /\ isCompleted entry = false.
Proof.
  destruct (StageNavigator_marks DATA_GENERATION) as (current & Hcur & _ & _ & Hmarks).
  vm_compute in Hcur. injection Hcur as <-.
  eexists. split; [reflexivity|].
  destruct (Hmarks 2%nat _ eq_refl) as (-> & -> & _). by split.
Defined.

End Navigator.

(** ** Sessions and their request log *)

Set Warnings "-clear-no-such-hyp".

Section Sessions.

Implicit Types (s : session) (e : event) (es : list event) (st : AppState) (w : world).
Implicit Types (log : list request) (req : request).

Lemma lockstep_same st st' : workflow st' = workflow st -> writes_in_lockstep st st'.
Proof.
  unfold workflow. intros [= Hs Hm Hb Hr Hc].
  unfold writes_in_lockstep, stage_moves. repeat split; by left.
Qed.

Lemma stage_moves_cases g g' :
  stage_moves g g' ->
  g' = g
  \/ (g = PROBLEM_DEFINITION /\ g' = MODEL_CONSTRUCTION)
  \/ (g = MODEL_CONSTRUCTION /\ g' = DATA_GENERATION)
  \/ (g = DATA_GENERATION /\ g' = ESTIMATION_ANALYSIS)
  \/ (g = ESTIMATION_ANALYSIS /\ g' = COUNTERFACTUAL).
Proof.
  intros [-> | Hs]; [by left|]. right.
  destruct g; vm_compute in Hs; simplify_eq; naive_solver.
Qed.

Lemma request_matches_lockstep st st' req :
  writes_in_lockstep st st' -> request_matches st req -> request_matches st' req.
Proof.
  intros (Hs%stage_moves_cases & Hm & Hb & _).
  destruct req; simpl; [done|..]; naive_solver congruence.
Qed.

Lemma analysis_requests_snoc log req :
  analysis_requests (log ++ [req])
  = (analysis_requests log + (if is_analysis_request req then 1 else 0))%nat.
Proof.
  unfold analysis_requests. rewrite filter_app, length_app. f_equal.
  rewrite filter_cons. by destruct req.
Qed.

Lemma no_analysis_request_before_data st log :
  Forall (request_matches st) log ->
  stage st = PROBLEM_DEFINITION \/ stage st = MODEL_CONSTRUCTION ->
  analysis_requests log = 0%nat.
Proof.
  intros Hlog Hg. unfold analysis_requests.
  induction Hlog as [|req log Hreq _ IH]; [done|].
  rewrite filter_cons. destruct req; simpl in *; try done. naive_solver.
Qed.

Ltac lockstep_goal :=
  first [ by left | by right | right; by split ].

Ltac resume_within :=
  let r := fresh "r" in let w := fresh "w" in let Hw := fresh "Hw" in
  repeat match goal with H : stage _ = _ |- _ => rewrite ?H end;
  intros r w Hw;
  destruct r as [|[[[|? ?]|] [?|]]]; cbn;
  (eexists; split; [reflexivity|];
   unfold writes_in_lockstep, stage_moves; cbn; rewrite ?Hw;
   repeat apply conj; first [ done | lockstep_goal ]).

Lemma mount_session_invariant : session_invariant mount.
Proof.
  split; [apply Forall_nil_2|]. split; [by apply Nat.le_0_l|]. by repeat split.
Qed.

Ltac solve_lockstep :=
  first [ by apply lockstep_same
        | unfold writes_in_lockstep, stage_moves; cbn;
          repeat match goal with H : stage _ = _ |- _ => rewrite !H end;
          repeat apply conj; lockstep_goal ].

Ltac solve_log Hlog :=
  first [ exact Hlog
        | apply Forall_app; split;
          [ apply (Forall_impl _ _ _ Hlog); intros ?;
            apply request_matches_lockstep; solve_lockstep
          | apply Forall_singleton; simpl;
            repeat match goal with H : stage _ = _ |- _ => rewrite !H end; done ]
        | apply (Forall_impl _ _ _ Hlog); intros ?;
          apply request_matches_lockstep; solve_lockstep ].

Ltac solve_count Hcount Hdg :=
  rewrite ?analysis_requests_snoc; simpl; rewrite ?Nat.add_0_r;
  repeat match goal with H : stage _ = _ |- _ => rewrite ?H end;
  first [ exact Hcount | exact Hdg | done
        | intros _; rewrite Hdg by done; done
        | rewrite Hdg by done; simpl; lia ].

Ltac solve_payload Hpay :=
  first [ exact Hpay
        | unfold payload_present in Hpay |- *; cbn in Hpay |- *;
          repeat match goal with H : stage _ = _ |- _ => rewrite H in Hpay end;
          repeat match goal with H : stage _ = _ |- _ => rewrite !H end;
          naive_solver ].

Ltac solve_inflight :=
  first [ done
        | repeat apply conj;
          first [ done
                | repeat match goal with H : stage _ = _ |- _ => rewrite !H end; done
                | resume_within ] ].

Ltac session_goal Hlog Hcount Hdg Hpay :=
  split;
  [ split; [solve_log Hlog|];
    split; [solve_count Hcount Hdg|];
    split; [solve_count Hcount Hdg|];
    split; [solve_payload Hpay|solve_inflight]
  | split; [solve_lockstep|first [ by left | right; by eexists | done ]] ].

Lemma session_step s e s' :
  session_invariant s -> step s e = Some s' ->
  session_invariant s'
  /\ writes_in_lockstep (app (current s)) (app (current s'))
  /\ match e with
     | Click _ =>
         sent (current s') = sent (current s)
         \/ exists req, sent (current s') = sent (current s) ++ [req]
     | _ => sent (current s') = sent (current s)
     end.
Proof.
  destruct s as [[st log prn] infl]. unfold session_invariant. simpl.
  intros (Hlog & Hcount & Hdg & Hpay & Hinfl).
  destruct infl as [|k [|k' infl]];
    [rename Hinfl into Hidle|destruct Hinfl as (Hbusy & Hstage & Hbase & Hk)|done].
  - destruct e as [b|t v|i r]; simpl; [| |done].
    + destruct b; simpl; rewrite ?Hidle; simpl.
      * case_bool_decide as Hg; [simpl|done].
        unfold handleProblemSubmit, dispatch.
        destruct (truthy_string (trim (problemInput st))); cbn;
          intros [= <-]; simpl; session_goal Hlog Hcount Hdg Hpay.
      * case_bool_decide as Hg; [simpl|done].
        unfold handleGenerateData, dispatch. cbn.
        intros [= <-]; simpl; session_goal Hlog Hcount Hdg Hpay.
      * destruct (stage st) eqn:Hg; simpl; rewrite ?andb_false_r; try done.
        destruct (truthy (baselineData st)) eqn:Hd; simpl; [|done].
        unfold handleProceedToAnalysis, dispatch. rewrite Hd.
        destruct (truthy_string (analysisReport st)) eqn:Hrep; cbn;
          intros [= <-]; simpl; session_goal Hlog Hcount Hdg Hpay.
      * destruct (stage st) eqn:Hg; simpl; rewrite ?andb_false_r; try done.
        destruct (truthy (baselineData st)) eqn:Hd; simpl; [|done].
        intros [= <-]; simpl; session_goal Hlog Hcount Hdg Hpay.
      * case_bool_decide as Hg; [simpl|done].
        destruct (truthy (baselineData st)) eqn:Hd; simpl; [|done].
        unfold handleRunCounterfactual, dispatch. rewrite Hd.
        destruct (truthy_string (trim (counterfactualInput st))); cbn;
          intros [= <-]; simpl; session_goal Hlog Hcount Hdg Hpay.
    + destruct (editable t st); [|done]. destruct t; intros [= <-]; simpl;
        session_goal Hlog Hcount Hdg Hpay.
  - destruct e as [b|t v|i r]; simpl.
    + destruct b; simpl; rewrite ?Hbusy, ?andb_false_r; try done.
      destruct (stage st); simpl; rewrite ?andb_false_r; try done.
    + destruct (editable t st); [|done]. destruct t; intros [= <-]; simpl;
        (split; [|split; [solve_lockstep|done]]);
        (split; [solve_log Hlog|]); do 3 (split; [done|]); done.
    + destruct i as [|i]; simpl; [|done].
      destruct (Hk r (mkWorld st log prn) eq_refl)
        as (w' & Hrun & Hsent & Hflag & _ & _ & Hlock & Hmove & Hreport & Hmodel).
      unfold dispatch. rewrite Hrun. intros [= <-]. simpl in *. rewrite Hsent.
      split; [|by split].
      pose proof Hlock as (Hs%stage_moves_cases & Hm & Hb & Hr & _).
      split; [|split; [done|split; [|split; [|done]]]].
      * apply (Forall_impl _ _ _ Hlog). intros req.
        by apply request_matches_lockstep.
      * intros Hg'.
        destruct Hs as [Hs | [[Hs1 Hs2] | [[Hs1 Hs2] | [[Hs1 Hs2] | [Hs1 Hs2]]]]];
          try congruence.
        -- rewrite Hs in Hg'. specialize (Hmove Hg'). congruence.
        -- apply (no_analysis_request_before_data st); [done|by right].
      * unfold payload_present in *.
        destruct Hs as [Hs | [[Hs1 Hs2] | [[Hs1 Hs2] | [[Hs1 Hs2] | [Hs1 Hs2]]]]].
        -- rewrite Hs.
           assert (modelLogic (app w') = modelLogic st) as -> by naive_solver congruence.
           assert (baselineData (app w') = baselineData st) as ->
             by naive_solver congruence.
           assert (analysisReport (app w') = analysisReport st) as ->
             by naive_solver congruence.
           done.
        -- rewrite Hs2. by apply Hmodel.
        -- rewrite Hs2. rewrite Hs1 in Hpay.
           destruct Hm as [-> | [? _]]; [done|congruence].
        -- rewrite Hs2. rewrite Hs1 in Hpay.
           destruct Hm as [-> | [? _]]; [|congruence].
           destruct Hb as [-> | [? _]]; [|congruence]. auto.
        -- done.
Qed.

Lemma session_steps es s s' :
  session_invariant s -> steps s es = Some s' -> session_invariant s'.
Proof.
  revert s. induction es as [|e es IH]; intros s Hs; simpl.
  - by intros [= <-].
  - destruct (step s e) as [s1|] eqn:He; simpl; [|done].
    apply IH. by apply (session_step s e).
Qed.

Lemma session_reachable es s : steps mount es = Some s -> session_invariant s.
Proof. apply session_steps, mount_session_invariant. Qed.

Lemma stage_moves_rank g g' :
  stage_moves g g' ->
  (stage_rank g <= stage_rank g')%nat /\ (g = COUNTERFACTUAL -> g' = COUNTERFACTUAL).
Proof.
  intros Hs%stage_moves_cases.
  destruct Hs as [-> | [[-> ->] | [[-> ->] | [[-> ->] | [-> ->]]]]];
    split; (done || (vm_compute; lia)).
Qed.

(** X13: the stage never goes back: between any two points of a session the
    position of the stage in the navigator does not decrease, and a session
    at Counterfactual stays there. *)
Theorem stage_never_regresses es s es' s' :
  steps mount es = Some s ->
  steps s es' = Some s' ->
  (stage_rank (stage (app (current s))) <= stage_rank (stage (app (current s'))))%nat
  /\ (stage (app (current s)) = COUNTERFACTUAL ->
      stage (app (current s')) = COUNTERFACTUAL).
Proof.
  intros Hs%session_reachable. revert s Hs.
  induction es' as [|e es' IH]; intros s Hs; simpl.
  - by intros [= <-].
  - destruct (step s e) as [s1|] eqn:He; simpl; [|done]. intros Hrest.
    destruct (session_step s e s1 Hs He) as (Hs1 & (Hmove%stage_moves_rank & _) & _).
    destruct (IH s1 Hs1 Hrest) as [Hle Hcf]. destruct Hmove as [Hle1 Hcf1].
    split; [lia | auto].
Qed.

Lemma stage_never_regresses_witness :
  exists s s',
    steps mount [Click BuildModel; Settle 0 sampleTextReply] = Some s
    /\ steps s [Click GenerateSyntheticData; Settle 0 Rejected] = Some s'
    /\ (stage_rank (stage (app (current s))) <= stage_rank (stage (app (current s'))))%nat.
Proof.
  eexists _, _. split; [by vm_compute|]. split; [by vm_compute|].
  refine (proj1 (stage_never_regresses
                   [Click BuildModel; Settle 0 sampleTextReply] _
                   [Click GenerateSyntheticData; Settle 0 Rejected] _ _ _));
    by vm_compute.
Defined.

(** X14: in a session every event writes the workflow in lockstep with the
    stage: the model text changes only in the step from Problem Definition to
    Model Construction, the baseline only in the step from Model Construction
    to Data Generation, the report only in the step from Data Generation to
    Estimation/Analysis, and the counterfactual result only at
    Counterfactual. *)
Theorem workflow_written_in_lockstep es s e s' :
  steps mount es = Some s ->
  step s e = Some s' ->
  writes_in_lockstep (app (current s)) (app (current s')).
Proof.
  intros Hs%session_reachable He. by apply (session_step s e s').
Qed.

Lemma workflow_written_in_lockstep_witness :
  exists s s',
    steps mount [Click BuildModel] = Some s
    /\ step s (Settle 0 sampleTextReply) = Some s'
    /\ writes_in_lockstep (app (current s)) (app (current s')).
Proof.
  eexists _, _. split; [by vm_compute|]. split; [by vm_compute|].
  refine (workflow_written_in_lockstep
            [Click BuildModel] _ (Settle 0 sampleTextReply) _ _ _);
    by vm_compute.
Defined.

(** X15: what a stage has produced stays: from any point of a session on,
    the model text no longer changes once the stage is past Problem
    Definition, the baseline data no longer change once it is past Model
    Construction, and the report no longer changes once it is past Data
    Generation. *)
Theorem workflow_fields_fixed_after_their_stage es s es' s' :
  steps mount es = Some s ->
  steps s es' = Some s' ->
  ((1 <= stage_rank (stage (app (current s))))%nat ->
   modelLogic (app (current s')) = modelLogic (app (current s)))
  /\ ((2 <= stage_rank (stage (app (current s))))%nat ->
      baselineData (app (current s')) = baselineData (app (current s)))
  /\ ((3 <= stage_rank (stage (app (current s))))%nat ->
      analysisReport (app (current s')) = analysisReport (app (current s))).
Proof.
  intros Hs%session_reachable. revert s Hs.
  induction es' as [|e es' IH]; intros s Hs; simpl.
  - by intros [= <-].
  - destruct (step s e) as [s1|] eqn:He; simpl; [|done]. intros Hrest.
    destruct (session_step s e s1 Hs He)
      as (Hs1 & (Hmove%stage_moves_rank & Hm & Hb & Hr & _) & _).
    destruct (IH s1 Hs1 Hrest) as (IHm & IHb & IHr). destruct Hmove as [Hle _].
    repeat split; intros Hrank.
    + rewrite IHm by lia. destruct Hm as [Hm | [Hm _]]; [done|].
      rewrite Hm in Hrank. vm_compute in Hrank. lia.
    + rewrite IHb by lia. destruct Hb as [Hb | [Hb _]]; [done|].
      rewrite Hb in Hrank. vm_compute in Hrank. lia.
    + rewrite IHr by lia. destruct Hr as [Hr | [Hr _]]; [done|].
      rewrite Hr in Hrank. vm_compute in Hrank. lia.
Qed.

Lemma workflow_fields_fixed_after_their_stage_witness :
  exists s s',
    steps mount [Click BuildModel; Settle 0 sampleTextReply] = Some s
    /\ steps s [Click GenerateSyntheticData; Settle 0 sampleDataReply] = Some s'
    /\ (1 <= stage_rank (stage (app (current s))))%nat
    /\ modelLogic (app (current s')) = modelLogic (app (current s)).
Proof.
  eexists _, _. split; [by vm_compute|]. split; [by vm_compute|].
  assert (1 <= stage_rank MODEL_CONSTRUCTION)%nat as Hrank by (vm_compute; lia).
  split; [exact Hrank|].
  refine (proj1 (workflow_fields_fixed_after_their_stage
                   [Click BuildModel; Settle 0 sampleTextReply] _
                   [Click GenerateSyntheticData; Settle 0 sampleDataReply] _ _ _) _);
    [by vm_compute | by vm_compute | exact Hrank].
Defined.

(** X16: nothing is sent behind the user's back: in a session a click sends
    at most one request, and an edit or the settling of a call, failed or
    not, sends none; there is no automatic retry. *)
Theorem only_clicks_send_requests es s e s' :
  steps mount es = Some s ->
  step s e = Some s' ->
  match e with
  | Click _ =>
      sent (current s') = sent (current s)
      \/ exists req, sent (current s') = sent (current s) ++ [req]
  | _ => sent (current s') = sent (current s)
  end.
Proof.
  intros Hs%session_reachable He. by apply (session_step s e s').
Qed.

Lemma only_clicks_send_requests_witness :
  exists s s',
    steps mount [Click BuildModel] = Some s
    /\ step s (Settle 0 Rejected) = Some s'
    /\ sent (current s') = sent (current s).
Proof.
  eexists _, _. split; [by vm_compute|]. split; [by vm_compute|].
  refine (only_clicks_send_requests [Click BuildModel] _ (Settle 0 Rejected) _ _ _);
    by vm_compute.
Defined.

(** X17: every request in the log of a session agrees with the state the
    session is in: each data request carried the model text now stored, each
    analysis request the model text and the baseline data now stored, each
    counterfactual request the baseline data now stored; and no data request
    was sent before Model Construction, no analysis request before Data
    Generation, no counterfactual request before Counterfactual. *)
Theorem requests_carry_the_stored_data es s :
  steps mount es = Some s ->
  Forall (request_matches (app (current s))) (sent (current s)).
Proof. intros Hs%session_reachable. apply Hs. Qed.

Lemma requests_carry_the_stored_data_witness :
  exists s,
    steps mount [Click BuildModel; Settle 0 sampleTextReply;
                 Click GenerateSyntheticData] = Some s
    /\ Forall (request_matches (app (current s))) (sent (current s)).
Proof.
  eexists. split; [by vm_compute|].
  refine (requests_carry_the_stored_data
            [Click BuildModel; Settle 0 sampleTextReply;
             Click GenerateSyntheticData] _ _);
    by vm_compute.
Defined.

(** X18: a session sends at most one analysis request: the analysis cannot
    be asked for a second time, whatever its outcome was. *)
Theorem at_most_one_analysis_request es s :
  steps mount es = Some s ->
  (analysis_requests (sent (current s)) <= 1)%nat.
Proof. intros Hs%session_reachable. apply Hs. Qed.

Lemma at_most_one_analysis_request_witness :
  exists s,
    steps mount [Click BuildModel; Settle 0 sampleTextReply;
                 Click GenerateSyntheticData; Settle 0 sampleDataReply;
                 Click ProceedToAnalysis; Settle 0 Rejected] = Some s
    /\ (analysis_requests (sent (current s)) <= 1)%nat.
Proof.
  eexists. split; [by vm_compute|].
  refine (at_most_one_analysis_request
            [Click BuildModel; Settle 0 sampleTextReply;
             Click GenerateSyntheticData; Settle 0 sampleDataReply;
             Click ProceedToAnalysis; Settle 0 Rejected] _ _);
    by vm_compute.
Defined.

(** X19: a session at Data Generation whose baseline data are falsy (the
    service answered with the JSON text [null], [false], [0] or an empty
    string) and whose flag is clear is at a dead end: no button accepts a
    click, no text can be edited and no call is outstanding. *)
Theorem falsy_baseline_is_a_dead_end es s e :
  steps mount es = Some s ->
  stage (app (current s)) = DATA_GENERATION ->
  truthy (baselineData (app (current s))) = false ->
  isProcessing (app (current s)) = false ->
  step s e = None.
Proof.
  intros (_ & _ & _ & _ & Hinfl)%session_reachable Hg Hd Hflag.
  destruct s as [[st log prn] [|k [|k' infl]]]; simpl in *;
    [|destruct Hinfl; congruence|done].
  destruct e as [b|t v|i r]; simpl; [| |done].
  - destruct b; simpl; rewrite Hg, ?Hd; done.
  - destruct t; simpl; by rewrite Hg.
Qed.

Lemma falsy_baseline_is_a_dead_end_witness :
  exists s,
    steps mount [Click BuildModel; Settle 0 sampleTextReply;
                 Click GenerateSyntheticData; Settle 0 nullReply] = Some s
    /\ stage (app (current s)) = DATA_GENERATION
    /\ truthy (baselineData (app (current s))) = false
    /\ isProcessing (app (current s)) = false
    /\ step s (Click ProceedToAnalysis) = None.
Proof.
  eexists. split; [by vm_compute|]. do 3 (split; [reflexivity|]).
  refine (falsy_baseline_is_a_dead_end
            [Click BuildModel; Settle 0 sampleTextReply;
             Click GenerateSyntheticData; Settle 0 nullReply] _
            (Click ProceedToAnalysis) _ _ _ _);
    by vm_compute.
Defined.

(** X21: what a stage shows is there: in a session past Problem Definition
    the model text is not empty, and in a session at Estimation/Analysis or at
    Counterfactual the baseline data are truthy and the report is not
    empty. *)
Theorem stage_products_present es s :
  steps mount es = Some s ->
  (stage (app (current s)) <> PROBLEM_DEFINITION ->
   truthy_string (modelLogic (app (current s))) = true)
  /\ (stage (app (current s)) = ESTIMATION_ANALYSIS
      \/ stage (app (current s)) = COUNTERFACTUAL ->
      truthy (baselineData (app (current s))) = true
      /\ truthy_string (analysisReport (app (current s))) = true).
Proof.
  intros (_ & _ & _ & Hpay & _)%session_reachable.
  unfold payload_present in Hpay.
  destruct (stage (app (current s))); naive_solver.
Qed.

Lemma stage_products_present_witness :
  exists s,
    steps mount [Click BuildModel; Settle 0 emptyReply;
                 Click GenerateSyntheticData; Settle 0 sampleDataReply;
                 Click ProceedToAnalysis; Settle 0 Rejected] = Some s
    /\ stage (app (current s)) = ESTIMATION_ANALYSIS
    /\ truthy (baselineData (app (current s))) = true
    /\ truthy_string (analysisReport (app (current s))) = true.
Proof.
  eexists. split; [by vm_compute|]. split; [reflexivity|].
  refine (proj2 (stage_products_present
                   [Click BuildModel; Settle 0 emptyReply;
                    Click GenerateSyntheticData; Settle 0 sampleDataReply;
                    Click ProceedToAnalysis; Settle 0 Rejected] _ _) _);
    [by vm_compute | by left].
Defined.

(** X20: a call that fails can be asked for again.  When nothing is
    outstanding and a click on Build Model, Generate Synthetic Data or Run
    Simulation has started a call, the rejection of that call leaves the
    workflow and both text inputs as they were before the click, clears the
    flag, and the same button accepts a click again. *)
Theorem rejected_call_can_be_retried s b s1 :
  inflight s = [] ->
  step s (Click b) = Some s1 ->
  inflight s1 <> [] ->
  b <> ProceedToAnalysis ->
  exists s2,
    step s1 (Settle 0 Rejected) = Some s2
    /\ workflow (app (current s2)) = workflow (app (current s))
    /\ problemInput (app (current s2)) = problemInput (app (current s))
    /\ counterfactualInput (app (current s2)) = counterfactualInput (app (current s))
    /\ isProcessing (app (current s2)) = false
    /\ inflight s2 = []
    /\ clickable b (app (current s2)) = true.
Proof.
  destruct s as [[st log prn] infl]. simpl. intros -> Hstep Hne Hb.
  destruct b; simpl in Hstep; [| | done | |].
  - destruct (bool_decide (stage st = PROBLEM_DEFINITION)) eqn:Hg; [|done].
    destruct (isProcessing st) eqn:Hflag; [done|]. simpl in Hstep.
    unfold handleProblemSubmit, dispatch in Hstep.
    destruct (truthy_string (trim (problemInput st))); cbn in Hstep;
      injection Hstep as <-; [|done].
    eexists. split; [reflexivity|]. cbn. by rewrite Hg.
  - destruct (bool_decide (stage st = MODEL_CONSTRUCTION)) eqn:Hg; [|done].
    destruct (isProcessing st) eqn:Hflag; [done|]. simpl in Hstep.
    injection Hstep as <-.
    eexists. split; [reflexivity|]. cbn. by rewrite Hg.
  - destruct (_ && _ && _); [|done]. by injection Hstep as <-.
  - destruct (bool_decide (stage st = COUNTERFACTUAL)) eqn:Hg; [|done].
    destruct (truthy (baselineData st)) eqn:Hd; [|done].
    destruct (isProcessing st) eqn:Hflag; [done|]. simpl in Hstep.
    unfold handleRunCounterfactual, dispatch in Hstep. rewrite Hd in Hstep.
    destruct (truthy_string (trim (counterfactualInput st))); cbn in Hstep;
      injection Hstep as <-; [|done].
    eexists. split; [reflexivity|]. cbn. by rewrite Hg, Hd.
Qed.

Lemma rejected_call_can_be_retried_witness :
  exists s1 s2,
    inflight mount = []
    /\ step mount (Click BuildModel) = Some s1
    /\ step s1 (Settle 0 Rejected) = Some s2
    /\ clickable BuildModel (app (current s2)) = true.
Proof.
  destruct (rejected_call_can_be_retried mount BuildModel
              (default mount (step mount (Click BuildModel))) eq_refl eq_refl)
    as (s2 & Hstep & _ & _ & _ & _ & _ & Hclick); [done..|].
  by exists (default mount (step mount (Click BuildModel))), s2.
Defined.

End Sessions.
